(** * Snowbanker threshold strategy: a shallow embedding of
      [src/strats/thresh.py] and of the helpers of [src/sbi/utils.py] it uses.

    Conventions of the embedding.
    - In the model of the strategy as it runs (the disk, the log, the
      broker, the clock) a Python [float] is an exact rational ([Q]) and
      comparisons are the boolean ones of [QArith]; that model says what
      is read, written, logged and sent, and in which order.
    - The arithmetic of the loop body of [tick], where a rounding decides
      between buying, selling and holding, is embedded a second time in
      module [B64] over binary64 numbers ([spec_float] with the operations
      of IEEE 754, rounding to nearest, ties to even); the properties of
      the position ratio, of the thresholds and of the sizes of orders are
      stated there.
    - A Python call that can raise returns an [outcome]; code that also
      touches the disk, the log, the clock or the broker runs in the
      state-and-exception monad [M] over a [world].
    - A JSON document is a [json] value; a Python [dict] is a [gmap]. *)

From Stdlib Require Import QArith Qround Qabs Lqa ZArith String Ascii List.
From Stdlib Require Import DecimalString DecimalZ.
From Stdlib Require Import Floats.SpecFloat.
From stdpp Require Import gmap strings list.

Set Warnings "-register-all".

(** ** Python runtime *)

Module Py.

(** The exceptions the embedded code can raise. *)
Inductive exn : Set :=
| AttributeError
| ZeroDivisionError
| ValueError
| TypeError
| KeyError
| OverflowError.

(** Result of one Python evaluation: a value, or a raised exception. *)
Inductive outcome (A : Type) : Type :=
| Ret (a : A)
| Raise (e : exn).
Arguments Ret {A} a.
Arguments Raise {A} e.

Definition obind {A B} (o : outcome A) (k : A -> outcome B) : outcome B :=
  match o with
  | Ret a => k a
  | Raise e => Raise e
  end.

Definition returns {A} (o : outcome A) : bool :=
  match o with Ret _ => true | Raise _ => false end.

(** [x / y] on floats. *)
Definition py_div (x y : Q) : outcome Q :=
  if Qeq_bool y 0 then Raise ZeroDivisionError else Ret (x / y)%Q.

(** [a < b] on floats. *)
Definition Qlt_bool (a b : Q) : bool := negb (Qle_bool b a).

(** [max(a, b)]: the first argument unless the second is greater. *)
Definition py_max (a b : Q) : Q := if Qlt_bool a b then b else a.

(** [min(a, b)]: the first argument unless the second is smaller. *)
Definition py_min (a b : Q) : Q := if Qlt_bool b a then b else a.

(** [round(x)] to the nearest integer, ties to the even one. *)
Definition py_round (x : Q) : Z :=
  let f := Qfloor x in
  let r := (x - inject_Z f)%Q in
  if Qlt_bool r (1 # 2) then f
  else if Qlt_bool (1 # 2) r then (f + 1)%Z
  else if Z.even f then f else (f + 1)%Z.

(** [round(x, 2)]. *)
Definition py_round2 (x : Q) : Q := (inject_Z (py_round (x * 100)) / 100)%Q.

(** [int(x)]: truncation toward zero. *)
Definition py_int (x : Q) : Z :=
  if Qle_bool 0 x then Qfloor x else Qceiling x.

(** [s.lower()] on ASCII text. *)
Definition lower_ascii (c : ascii) : ascii :=
  let n := nat_of_ascii c in
  if (65 <=? n)%nat && (n <=? 90)%nat then ascii_of_nat (n + 32) else c.

Fixpoint py_lower (s : string) : string :=
  match s with
  | EmptyString => EmptyString
  | String c r => String (lower_ascii c) (py_lower r)
  end.

(** The ASCII characters [str.split()] treats as whitespace. *)
Definition is_space (c : ascii) : bool :=
  let n := nat_of_ascii c in
  ((9 <=? n)%nat && (n <=? 13)%nat) || ((28 <=? n)%nat && (n <=? 32)%nat).

Definition is_empty (s : string) : bool :=
  match s with EmptyString => true | _ => false end.

(** [s.split()]: the maximal runs of non-whitespace; [cur] is the run
    being read. *)
Fixpoint py_split_from (cur s : string) : list string :=
  match s with
  | EmptyString => if is_empty cur then [] else [cur]
  | String c r =>
      if is_space c
      then (if is_empty cur then py_split_from EmptyString r
            else cur :: py_split_from EmptyString r)
      else py_split_from (String.append cur (String c EmptyString)) r
  end.

Definition py_split (s : string) : list string := py_split_from EmptyString s.

(** [sep.join(l)]. *)
Fixpoint py_join (sep : string) (l : list string) : string :=
  match l with
  | [] => EmptyString
  | [x] => x
  | x :: r => String.append x (String.append sep (py_join sep r))
  end.

(** [s.replace(old, new)] for one-character [old] and [new]. *)
Fixpoint py_replace (old new : ascii) (s : string) : string :=
  match s with
  | EmptyString => EmptyString
  | String c r =>
      String (if Ascii.eqb c old then new else c) (py_replace old new r)
  end.

(** [os.path.join(dpath, fname)] for a relative [fname]. *)
Fixpoint ends_with_slash (s : string) : bool :=
  match s with
  | EmptyString => false
  | String c EmptyString => Ascii.eqb c "/"%char
  | String _ r => ends_with_slash r
  end.

Definition path_join (dpath fname : string) : string :=
  if is_empty dpath then fname
  else if ends_with_slash dpath then String.append dpath fname
  else String.append dpath (String.append "/" fname).

End Py.

Export Py.

(** ** JSON values *)

Inductive json : Type :=
| JNull
| JBool (b : bool)
| JInt (z : Z)
| JFloat (q : Q)
| JStr (s : string)
| JList (l : list json)
| JDict (m : gmap string json).

(** [type(x)] of a JSON value as Python sees it. *)
Inductive pytype : Set :=
| TNone | TBool | TInt | TFloat | TStr | TList | TDict.

Definition type_of (j : json) : pytype :=
  match j with
  | JNull => TNone
  | JBool _ => TBool
  | JInt _ => TInt
  | JFloat _ => TFloat
  | JStr _ => TStr
  | JList _ => TList
  | JDict _ => TDict
  end.

Definition pytype_eqb (a b : pytype) : bool :=
  match a, b with
  | TNone, TNone | TBool, TBool | TInt, TInt | TFloat, TFloat
  | TStr, TStr | TList, TList | TDict, TDict => true
  | _, _ => false
  end.

Definition is_null (j : json) : bool :=
  match j with JNull => true | _ => false end.

(** [k in jdata] for a string [k]. *)
Definition py_contains (jdata : json) (k : string) : outcome bool :=
  match jdata with
  | JDict m => Ret (match m !! k with Some _ => true | None => false end)
  | JList l =>
      Ret (existsb (fun x => match x with JStr s => String.eqb s k | _ => false end) l)
  | JStr s => Ret (match index 0 k s with Some _ => true | None => false end)
  | _ => Raise TypeError
  end.

(** [jdata[k]] for a string [k]. *)
Definition py_getitem (jdata : json) (k : string) : outcome json :=
  match jdata with
  | JDict m => match m !! k with Some v => Ret v | None => Raise KeyError end
  | _ => Raise TypeError
  end.

(** ** Price points and assets ([sbi/asset.py])

    The file [sbi/asset.py] is imported by [thresh.py]; what the strategy
    reads of it is modelled below from the specification's data model. *)

(** Modelled from the spec: [PriceDataPoint] of [sbi/asset.py], a price, the
    instant it was observed and a quantity.  An instant is a [datetime]:
    a whole number of microseconds since the epoch. *)
Record PriceDataPoint : Type := mkPDP {
  pdp_price : Q;
  pdp_timestamp : Z;
  pdp_quantity : Q
}.

(** [datetime.timestamp()]: the instant in seconds. *)
Definition datetime_timestamp (t : Z) : Q := (inject_Z t / 1000000)%Q.

(** Modelled from the spec: [PriceDataPoint.value()], price times quantity. *)
Definition pdp_value (p : PriceDataPoint) : Q := (pdp_price p * pdp_quantity p)%Q.

(** Modelled from the spec: [PriceDataPoint.timestamp_total_seconds()]. *)
Definition timestamp_total_seconds (p : PriceDataPoint) : Q :=
  datetime_timestamp (pdp_timestamp p).

(** Modelled from the spec: [Asset] of [sbi/asset.py], built by
    [Asset(symbol, name, quantity)] with an empty price history. *)
Record Asset : Type := mkAsset {
  a_symbol : string;
  a_name : string;
  a_quantity : Q;
  a_phistory : list PriceDataPoint
}.

Definition Asset_new (symbol name : string) (quantity : Q) : Asset :=
  mkAsset symbol name quantity [].

(** Modelled from the spec: [Asset.phistory_latest()], the newest recorded
    point, [None] when nothing is recorded. *)
Definition phistory_latest (a : Asset) : option PriceDataPoint :=
  last (a_phistory a).

(** The first point of [l] (started from [best]) that no other point beats. *)
Fixpoint pdp_extreme (better : Q -> Q -> bool) (best : PriceDataPoint)
    (l : list PriceDataPoint) : PriceDataPoint :=
  match l with
  | [] => best
  | p :: r =>
      pdp_extreme better (if better (pdp_value p) (pdp_value best) then p else best) r
  end.

(** Modelled from the spec: [Asset.phistory_min()], the recorded point of
    least value, [None] when nothing is recorded. *)
Definition phistory_min (a : Asset) : option PriceDataPoint :=
  match a_phistory a with
  | [] => None
  | p :: r => Some (pdp_extreme Qlt_bool p r)
  end.

(** Modelled from the spec: [Asset.phistory_max()], the recorded point of
    greatest value, [None] when nothing is recorded. *)
Definition phistory_max (a : Asset) : option PriceDataPoint :=
  match a_phistory a with
  | [] => None
  | p :: r => Some (pdp_extreme (fun x y => Qlt_bool y x) p r)
  end.

(** Modelled from the spec: [Asset.phistory_append(pdp)], called by
    [retrieve_assets] with the live asset's newest point; with no such
    point the history is left as it is. *)
Definition phistory_append (a : Asset) (p : option PriceDataPoint) : Asset :=
  match p with
  | Some x => mkAsset (a_symbol a) (a_name a) (a_quantity a) (a_phistory a ++ [x])
  | None => a
  end.

Definition set_quantity (a : Asset) (q : Q) : Asset :=
  mkAsset (a_symbol a) (a_name a) q (a_phistory a).

(** Modelled from the spec: [AssetGroup.search(symbol)], the asset of the
    group with that symbol, [None] when there is none. *)
Definition AssetGroup_search (assets : list Asset) (sym : string) : option Asset :=
  List.find (fun a => String.eqb (a_symbol a) sym) assets.

(** Modelled from the spec: the removal loop of [retrieve_assets] over the
    [AssetGroup], which filters the account's assets to the tracked symbols. *)
Definition AssetGroup_keep (symbols : list string) (assets : list Asset) : list Asset :=
  List.filter (fun a => existsb (String.eqb (a_symbol a)) symbols) assets.

(** ** Orders ([sbi/api.py]) *)

Inductive TradeOrderAction : Set := BUY | SELL.

(** Modelled from the spec: [TradeOrder(symbol, action, dollar_amount)]. *)
Record TradeOrder : Type := mkOrder {
  o_symbol : string;
  o_action : TradeOrderAction;
  o_amount : Q
}.

(** Modelled from the spec: the fill [send_order] answers with. *)
Record Fill : Type := mkFill {
  f_value : Q;
  f_quantity : Q;
  f_id : string
}.

(** ** [sbi/utils.py] *)

(** [IR], the "internal result": a success flag, a message and some data. *)
Record IR (A : Type) : Type := mkIR {
  success : bool;
  message : string;
  data : option A
}.
Arguments mkIR {A} _ _ _.
Arguments success {A} _.
Arguments message {A} _.
Arguments data {A} _.

(** [IR(True, data=d)], [IR(True)] and [IR(False, msg=m)]. *)
Definition IR_ok {A} (d : A) : IR A := mkIR true EmptyString (Some d).
Definition IR_true {A} : IR A := mkIR true EmptyString None.
Definition IR_fail {A} (m : string) : IR A := mkIR false m None.

(** A failed result handed on to a caller that returns another data type
    ([return res]): the flag and the message stay, there is no data. *)
Definition IR_pass {A B} (r : IR A) : IR B := mkIR (success r) (message r) None.

(** [str_to_fname(string, extension)]. *)
Definition str_to_fname (s extension : string) : string :=
  let fname := py_join "_" (py_split s) in
  let fname := py_replace "/"%char "-"%char fname in
  let fname := py_replace "\"%char "-"%char fname in
  let extension :=
    if is_empty extension then EmptyString else String.append "." extension in
  String.append fname extension.

(** [json_check_keys(jdata, expected)]: every expected key is present with
    the expected type. *)
Fixpoint json_check_keys (jdata : json) (expected : list (string * pytype))
    : outcome bool :=
  match expected with
  | [] => Ret true
  | (k, ty) :: rest =>
      obind (py_contains jdata k) (fun present =>
      if negb present then Ret false
      else obind (py_getitem jdata k) (fun v =>
           if negb (pytype_eqb (type_of v) ty) then Ret false
           else json_check_keys jdata rest))
  end.

(** ** The world the strategy runs in *)

(** What [open()] finds at a path: the text a read yields ([None] when the
    read raises) and whether a write is let through. *)
Record fnode : Type := mkFile {
  f_text : option string;
  f_writable : bool
}.

(** Modelled from the spec: the messages handed to [Strategy.log], by the
    format string that builds them and the values formatted into it. *)
Inductive logmsg : Type :=
| LogMarketsClosed
| LogNoHistory (sym : string)
| LogStats (sym : string) (quantity price value : Q)
| LogProgbar (vmin : Q) (stars spaces : nat) (vmax : Q)
| LogBuyMinimum
| LogBuy (amount : Q)
| LogNotEnough
| LogSell (amount : Q)
| LogHold
| LogOrderFailed (msg : string)
| LogOrderSucceeded (value : Q) (id : string)
| LogValueSum (vsum : Q).

Record world : Type := mkWorld {
  w_disk : gmap string fnode;
  w_log : list logmsg;
  w_sent : list TradeOrder;
  w_clock : nat
}.

(** State and exceptions: the world is kept up to the raise. *)
Definition M (A : Type) : Type := world -> outcome A * world.

Definition mret {A} (a : A) : M A := fun w => (Ret a, w).

Definition mbind {A B} (m : M A) (k : A -> M B) : M B :=
  fun w =>
    match m w with
    | (Ret a, w') => k a w'
    | (Raise e, w') => (Raise e, w')
    end.

Definition mlift {A} (o : outcome A) : M A := fun w => (o, w).

Declare Scope py_scope.
Delimit Scope py_scope with py.
Notation "'let*' x ':=' m 'in' k" := (mbind m (fun x => k))
  (at level 10, x name, m at level 100, k at level 200) : py_scope.
Notation "m ';;' k" := (mbind m (fun _ => k))
  (at level 100, k at level 200, right associativity) : py_scope.
Local Open Scope py_scope.

(** [self.log(msg)]. *)
Definition log (m : logmsg) : M unit :=
  fun w => (Ret tt, mkWorld (w_disk w) (w_log w ++ [m]) (w_sent w) (w_clock w)).

(** What the operating system does when a file operation fails: the text
    of the exception ([str(e)]) that reading a path and that writing a path
    raise, and, for a write of a text to a path that fails after [open] has
    truncated the file, the number of characters of the text left in the
    file ([None]: the write goes through). *)
Record os_faults : Type := mkFaults {
  read_error : string -> string;
  write_error : string -> string;
  write_cut : string -> string -> option nat
}.

(** The message of a failure: ["<what> (<fpath>): <e>"]. *)
Definition os_message (what fpath e : string) : string :=
  String.append what
    (String.append " (" (String.append fpath (String.append "): " e))).

(** [file_read_all(fpath)]: the text, or a failure when [open] or [read]
    raises. *)
Definition file_read_all (os : os_faults) (fpath : string) : M (IR string) :=
  fun w =>
    match w_disk w !! fpath with
    | Some (mkFile (Some txt) _) => (Ret (IR_ok txt), w)
    | _ =>
        (Ret (IR_fail (os_message "failed to read from file" fpath (read_error os fpath))),
         w)
    end.

(** [file_write_all(fpath, string)]: replaces the file's text.  When
    [open(fpath, "w")] raises, the disk is as it was; when [write] or
    [close] raises, the file has been truncated by [open] and holds what
    was written of the text until then.  Either way a failure is
    returned. *)
Definition file_write_all (os : os_faults) (fpath txt : string) : M (IR unit) :=
  fun w =>
    let failure : IR unit :=
      IR_fail (os_message "failed to write to file" fpath (write_error os fpath)) in
    match w_disk w !! fpath with
    | Some (mkFile _ false) => (Ret failure, w)
    | _ =>
        match write_cut os fpath txt with
        | Some n =>
            (Ret failure,
             mkWorld (<[fpath := mkFile (Some (String.substring 0 n txt)) true]> (w_disk w))
                     (w_log w) (w_sent w) (w_clock w))
        | None =>
            (Ret IR_true,
             mkWorld (<[fpath := mkFile (Some txt) true]> (w_disk w))
                     (w_log w) (w_sent w) (w_clock w))
        end
    end.

(** ** [strats/thresh.py] *)

(** The strategy globals set by [config_load]. *)
Record config : Type := mkConfig {
  base_buy : Q;
  thresh_buy : Q;
  thresh_sell : Q;
  order_cooldown : Z;
  symbols : list string
}.

(** [symbol_to_asset_fname(name)]. *)
Definition symbol_to_asset_fname (name : string) : string :=
  str_to_fname (String.append "asset_" (py_lower name)) "json".

Inductive AssetMode : Set := UNKNOWN | WATCH | HOLD.

(** [mode.value]. *)
Definition AssetMode_value (m : AssetMode) : Z :=
  match m with UNKNOWN => -1 | WATCH => 0 | HOLD => 1 end.

(** [AssetMode(v)]: the member of that value, [ValueError] when none has it. *)
Definition AssetMode_of (v : Z) : outcome AssetMode :=
  if (v =? -1)%Z then Ret UNKNOWN
  else if (v =? 0)%Z then Ret WATCH
  else if (v =? 1)%Z then Ret HOLD
  else Raise ValueError.

Record AssetData : Type := mkAD {
  asset : Asset;
  mode : AssetMode;
  thistory : list PriceDataPoint
}.

(** [AssetData(asset)]. *)
Definition AssetData_new (a : Asset) : AssetData := mkAD a UNKNOWN [].

Definition thistory_append (ad : AssetData) (pdp : PriceDataPoint) : AssetData :=
  mkAD (asset ad) (mode ad) (thistory ad ++ [pdp]).

Definition thistory_latest (ad : AssetData) : option PriceDataPoint :=
  let thlen := length (thistory ad) in
  if (thlen =? 0)%nat then None else thistory ad !! (thlen - 1)%nat.

(** [percent_to_max] of [tick]: where the current value lies between the
    recorded minimum and maximum, in exact arithmetic
    ([B64.percent_to_max] is the one in binary64). *)
Definition percent_to_max (vmin vmax vcurr : Q) : outcome Q :=
  if negb (Qeq_bool vmax vmin)
  then py_div (vcurr - vmin) (vmax - vmin)
  else Ret 0%Q.

(** The cooldown test of [tick]: a transaction exists and is younger than
    [order_cooldown] seconds. *)
Definition in_cooldown (cooldown : Z) (now_secs : Q) (ad : AssetData) : bool :=
  match thistory_latest ad with
  | Some ltran =>
      let ltran_secs := timestamp_total_seconds ltran in
      let diff_secs := (now_secs - ltran_secs)%Q in
      Qlt_bool diff_secs (inject_Z cooldown)
  | None => false
  end.

(** [buy_amount] of [tick], in exact arithmetic. *)
Definition buy_amount (cfg : config) (pct : Q) : outcome Q :=
  let thresh_buy_percent := ((1 # 2) - thresh_buy cfg)%Q in
  obind (py_div pct thresh_buy_percent) (fun d =>
  let buy_amount := ((1 - d) * base_buy cfg)%Q in
  Ret (py_max 1 buy_amount)).

(** [sell_amount] of [tick], in exact arithmetic; [held] is the value of
    the shares owned. *)
Definition sell_amount (cfg : config) (pct held : Q) : outcome Q :=
  let thresh_sell_percent := ((1 # 2) + thresh_sell cfg)%Q in
  obind (py_div (pct - thresh_sell_percent) (1 - thresh_sell_percent)) (fun multiplier =>
  let sell_amount := (multiplier * base_buy cfg)%Q in
  let sell_amount := py_min held sell_amount in
  let sell_amount := py_max 0 (py_round2 (sell_amount - 1)) in
  Ret sell_amount).

(** The length of the starred part of the progress bar and of its rest:
    [range(n)] is empty for a negative [n]. *)
Definition progbar_stars (pct : Q) : nat := Z.to_nat (py_int (25 * pct)).
Definition progbar_spaces (pct : Q) : nat := Z.to_nat (25 - py_int (25 * pct)).

(** [obj.value()] where [obj] may be [None]. *)
Definition value_of (p : option PriceDataPoint) : outcome Q :=
  match p with
  | Some x => Ret (pdp_value x)
  | None => Raise AttributeError
  end.

Definition is_none {A} (o : option A) : bool :=
  match o with None => true | Some _ => false end.

(** The collaborators the strategy is run against. *)
Record env : Type := mkEnv {
  (** [Asset.json_make], [Asset.json_parse], [PriceDataPoint.json_make] and
      [PriceDataPoint.json_parse] of [sbi/asset.py]; a parser answers
      [None] for a document it does not accept. *)
  Asset_json_make : Asset -> gmap string json;
  Asset_json_parse : json -> option Asset;
  PDP_json_make : PriceDataPoint -> json;
  PDP_json_parse : json -> option PriceDataPoint;
  (** [json.dumps] and [json.loads] ([None]: the text is not JSON). *)
  json_dumps : json -> string;
  json_loads : string -> option json;
  (** The brokerage API: the market status, the account's assets, and the
      answer to an order given the orders sent before it. *)
  api_get_market_status : IR bool;
  api_get_assets : IR (list Asset);
  api_send_order : list TradeOrder -> TradeOrder -> IR Fill;
  (** [datetime.now()], by the number of earlier readings. *)
  clock : nat -> Z;
  (** The strategy globals and the working directory. *)
  cfg : config;
  work_dpath : string;
  (** The failures of the file system. *)
  faults : os_faults
}.

Section Engine.

Variable E : env.

(** [json_try_loads(string)]: the parsed document, Python's [None] when
    [json.loads] raises (as it does when handed [None]). *)
Definition json_try_loads (s : option string) : json :=
  match s with
  | Some txt => match json_loads E txt with
                | Some j => j
                | None => JNull
                end
  | None => JNull
  end.

(** [datetime.now()]. *)
Definition py_now : M Z :=
  fun w => (Ret (clock E (w_clock w)),
            mkWorld (w_disk w) (w_log w) (w_sent w) (S (w_clock w))).

(** [self.api.send_order(order)]. *)
Definition send_order (order : TradeOrder) : M (IR Fill) :=
  fun w => (Ret (api_send_order E (w_sent w) order),
            mkWorld (w_disk w) (w_log w) (w_sent w ++ [order]) (w_clock w)).

(** [AssetData.json_make]. *)
Definition AssetData_json_make (ad : AssetData) : json :=
  let jdata := Asset_json_make E (asset ad) in
  let jdata := <["mode" := JInt (AssetMode_value (mode ad))]> jdata in
  let pdps := List.map (PDP_json_make E) (thistory ad) in
  JDict (<["thistory" := JList pdps]> jdata).

(** The loop of [AssetData.json_parse] over [jdata["thistory"]]. *)
Fixpoint parse_thistory (l : list json) (ad : AssetData) : option AssetData :=
  match l with
  | [] => Some ad
  | pdp :: rest =>
      if is_null pdp then parse_thistory rest ad
      else match PDP_json_parse E pdp with
           | None => None
           | Some pdp_obj => parse_thistory rest (thistory_append ad pdp_obj)
           end
  end.

(** [AssetData.json_parse]: the parsed object, [None] on failure. *)
Definition AssetData_json_parse (jdata : json) : outcome (option AssetData) :=
  match Asset_json_parse E jdata with
  | None => Ret None
  | Some a =>
      let ad := AssetData_new a in
      obind (json_check_keys jdata [("mode", TInt); ("thistory", TList)]) (fun ok =>
      if negb ok then Ret None
      else
        obind (py_getitem jdata "mode") (fun jm =>
        obind (match jm with JInt v => AssetMode_of v | _ => Raise ValueError end) (fun m =>
        let ad := mkAD (asset ad) m (thistory ad) in
        obind (py_getitem jdata "thistory") (fun jt =>
        match jt with
        | JList l => Ret (parse_thistory l ad)
        | _ => Raise TypeError
        end))))
  end.

(** [AssetData.save]. *)
Definition save (ad : AssetData) (dpath : string) : M (IR unit) :=
  let jdata := AssetData_json_make ad in
  let fname := symbol_to_asset_fname (a_symbol (asset ad)) in
  let fpath := path_join dpath fname in
  let jstr := json_dumps E jdata in
  file_write_all (faults E) fpath jstr.

(** [AssetData.load]. *)
Definition load (symbol dpath : string) : M (IR AssetData) :=
  let fname := symbol_to_asset_fname symbol in
  let fpath := path_join dpath fname in
  let* res := file_read_all (faults E) fpath in
  if negb (success res) then mret (IR_pass res)
  else
    let jdata := json_try_loads (data res) in
    if is_null jdata
    then mret (IR_fail (String.append "failed to parse JSON data from file: " fpath))
    else
      let* ad := mlift (AssetData_json_parse jdata) in
      match ad with
      | None =>
          mret (IR_fail (String.append "failed to parse AssetData from file: " fpath))
      | Some ad => mret (IR_ok ad)
      end.

(** [TStrat.place_order]: the fill (or [None]) and the asset data as the
    call leaves it. *)
Definition place_order (ad : AssetData) (order : TradeOrder)
    : M (option Fill * AssetData) :=
  let* res := send_order order in
  if negb (success res) then
    log (LogOrderFailed (message res)) ;;
    mret (None, ad)
  else
    let* order_result := mlift (match data res with
                                | Some f => Ret f
                                | None => Raise AttributeError
                                end) in
    log (LogOrderSucceeded (f_value order_result) (f_id order_result)) ;;
    let* current_price := mlift (py_div (f_value order_result) (f_quantity order_result)) in
    let* now := py_now in
    let pdp := mkPDP current_price now (f_quantity order_result) in
    let ad := thistory_append ad pdp in
    save ad (work_dpath E) ;;
    mret (Some order_result, ad).

(** One round of the second loop of [retrieve_assets]. *)
Definition retrieve_one (assets : list Asset) (sym : string) : M AssetData :=
  let* res := load sym (work_dpath E) in
  let ad := if success res then data res else None in
  let a := AssetGroup_search assets sym in
  let ad :=
    match a with
    | None => match ad with
              | Some ad => ad
              | None => AssetData_new (Asset_new sym sym 0)
              end
    | Some a =>
        match ad with
        | Some ad =>
            let asset' := phistory_append (asset ad) (phistory_latest a) in
            mkAD (set_quantity asset' (a_quantity a)) (mode ad) (thistory ad)
        | None => AssetData_new a
        end
    end in
  save ad (work_dpath E) ;;
  mret ad.

Fixpoint retrieve_each (assets : list Asset) (syms : list string) : M (list AssetData) :=
  match syms with
  | [] => mret []
  | sym :: rest =>
      let* ad := retrieve_one assets sym in
      let* adata := retrieve_each assets rest in
      mret (ad :: adata)
  end.

(** [TStrat.retrieve_assets]. *)
Definition retrieve_assets : M (IR (list AssetData)) :=
  let res := api_get_assets E in
  if negb (success res) then mret (IR_pass res)
  else
    let* assets := mlift (match data res with
                          | Some l => Ret l
                          | None => Raise TypeError
                          end) in
    let assets := AssetGroup_keep (symbols (cfg E)) assets in
    let* adata := retrieve_each assets (symbols (cfg E)) in
    mret (IR_ok adata).

(** The "actual strategic stuff" of [tick] for one asset, reached when the
    cooldown gate lets the asset through: [held] is the value of the shares
    owned, [pct] the position of the current price in the recorded range.
    The tests against the thresholds are those of exact arithmetic; which
    branch the code takes on floats is [B64.decide]. *)
Definition decide (ad : AssetData) (no_history : bool) (held pct : Q) : M unit :=
  let sym := a_symbol (asset ad) in
  let own_shares := Qlt_bool 0 (a_quantity (asset ad)) in
  if negb own_shares then
    if no_history || Qeq_bool (a_quantity (asset ad)) 0 then
      log LogBuyMinimum ;;
      place_order ad (mkOrder sym BUY 1) ;;
      mret tt
    else mret tt
  else
    let thresh_buy_percent := ((1 # 2) - thresh_buy (cfg E))%Q in
    if Qle_bool pct thresh_buy_percent then
      let* amount := mlift (buy_amount (cfg E) pct) in
      log (LogBuy amount) ;;
      place_order ad (mkOrder sym BUY amount) ;;
      mret tt
    else
      let thresh_sell_percent := ((1 # 2) + thresh_sell (cfg E))%Q in
      if Qle_bool thresh_sell_percent pct then
        let* amount := mlift (sell_amount (cfg E) pct held) in
        if Qeq_bool amount 0 then
          log LogNotEnough
        else
          log (LogSell amount) ;;
          place_order ad (mkOrder sym SELL amount) ;;
          mret tt
      else log LogHold.

(** The "fancy logging" of [tick]: the position ratio, logged with the
    asset's statistics when there is a history. *)
Definition position (ad : AssetData) (no_history : bool)
    (amin amax acurr : option PriceDataPoint) : M Q :=
  if negb no_history then
    let* vmax := mlift (value_of amax) in
    let* vmin := mlift (value_of amin) in
    let* vcurr := mlift (value_of acurr) in
    let* pct := mlift (percent_to_max vmin vmax vcurr) in
    let quantity := a_quantity (asset ad) in
    let price := match acurr with Some p => pdp_price p | None => 0%Q end in
    log (LogStats (a_symbol (asset ad)) quantity price (vcurr * quantity)) ;;
    log (LogProgbar vmin (progbar_stars pct) (progbar_spaces pct) vmax) ;;
    mret pct
  else mret 0%Q.

(** The body of the loop of [tick]: one asset, the running value sum in and
    out. *)
Definition tick_asset (vsum : Q) (ad : AssetData) : M Q :=
  let amin := phistory_min (asset ad) in
  let amax := phistory_max (asset ad) in
  let acurr := phistory_latest (asset ad) in
  let no_history := is_none amin || is_none amax || is_none acurr in
  (if no_history then log (LogNoHistory (a_symbol (asset ad))) else mret tt) ;;
  let* vcurr := mlift (value_of acurr) in
  let vsum := (vsum + vcurr * a_quantity (asset ad))%Q in
  let* now := py_now in
  let now_secs := datetime_timestamp now in
  if in_cooldown (order_cooldown (cfg E)) now_secs ad then mret vsum
  else
    let* pct := position ad no_history amin amax acurr in
    decide ad no_history (vcurr * a_quantity (asset ad)) pct ;;
    mret vsum.

Fixpoint tick_loop (vsum : Q) (adata : list AssetData) : M Q :=
  match adata with
  | [] => mret vsum
  | ad :: rest =>
      let* vsum := tick_asset vsum ad in
      tick_loop vsum rest
  end.

(** [TStrat.tick]. *)
Definition tick : M (IR unit) :=
  let res := api_get_market_status E in
  if negb (success res) then mret (IR_pass res)
  else
    (match data res with
     | Some true => mret tt
     | _ => log LogMarketsClosed
     end) ;;
    let* res := retrieve_assets in
    if negb (success res) then mret (IR_pass res)
    else
      let* adata := mlift (match data res with
                           | Some l => Ret l
                           | None => Raise TypeError
                           end) in
      let* vsum := tick_loop 0 adata in
      log (LogValueSum vsum) ;;
      mret IR_true.

End Engine.

(** ** The rest of the files

    [file_append] and [csv_append_row] of [sbi/utils.py], and
    [TStrat.config_load] of [strats/thresh.py]. *)

(** [os.path.isfile(fpath)]; the disk holds regular files only. *)
Definition isfile (fpath : string) : M bool :=
  fun w => (Ret (match w_disk w !! fpath with Some _ => true | None => false end), w).

(** [file_append(fpath, string)]: the text goes after what the file holds,
    a file that is not there is created, a refused write is reported as a
    failure.  A file that cannot be read stays so. *)
Definition file_append (fpath txt : string) : M (IR unit) :=
  fun w =>
    match w_disk w !! fpath with
    | Some (mkFile _ false) =>
        (Ret (IR_fail (String.append "failed to append to file: " fpath)), w)
    | Some (mkFile old true) =>
        (Ret IR_true,
         mkWorld (<[fpath := mkFile (option_map (fun t => String.append t txt) old) true]>
                    (w_disk w))
                 (w_log w) (w_sent w) (w_clock w))
    | None =>
        (Ret IR_true,
         mkWorld (<[fpath := mkFile (Some txt) true]> (w_disk w))
                 (w_log w) (w_sent w) (w_clock w))
    end.

Definition newline : string := String (ascii_of_nat 10) EmptyString.

Section Csv.

(** The values of a row, and [str] on them. *)
Context {A : Type} (py_str : A -> string).

(** The loop of [csv_append_row] from index [i] on, [row] being what is
    left of the row from there. *)
Fixpoint csv_row_from (row : list A) (i row_len : nat) (row_str : string) : string :=
  match row with
  | [] => row_str
  | x :: rest =>
      let row_str := String.append row_str (py_str x) in
      let row_str :=
        if (i <? row_len - 1)%nat then String.append row_str "," else row_str in
      csv_row_from rest (S i) row_len row_str
  end.

(** [csv_append_row(fpath, row)]. *)
Definition csv_append_row (fpath : string) (row : list A) : M (IR unit) :=
  let row_str := csv_row_from row 0 (length row) EmptyString in
  file_append fpath (String.append row_str newline).

End Csv.

(** The value behind a key that [json_check_keys] has found to be a float,
    an int or a list. *)
Definition as_float (j : json) : outcome Q :=
  match j with JFloat q => Ret q | _ => Raise TypeError end.

Definition as_int (j : json) : outcome Z :=
  match j with JInt z => Ret z | _ => Raise TypeError end.

Definition as_list (j : json) : outcome (list json) :=
  match j with JList l => Ret l | _ => Raise TypeError end.

(** The keys [config_load] expects, with their types. *)
Definition config_expected : list (string * pytype) :=
  [ ("base_buy", TFloat); ("thresh_buy", TFloat); ("thresh_sell", TFloat);
    ("order_cooldown", TInt); ("symbols", TList) ].

Section Config.

Variable E : env.

(** [TStrat.config_load(fpath)], from the strategy globals [g] to the
    result and the globals it leaves; [symbols] is not among the globals it
    assigns. *)
Definition config_load (fpath : string) (g : config) : M (IR (list json) * config) :=
  let* isf := isfile fpath in
  if negb isf
  then mret (IR_fail (String.append "the given file path ("
                        (String.append fpath ") is not a file")), g)
  else
    let* res := file_read_all (faults E) fpath in
    if negb (success res) then mret (IR_pass res, g)
    else
      let jdata := json_try_loads E (data res) in
      if is_null jdata
      then mret (IR_fail (String.append "failed to load JSON data from: " fpath), g)
      else
        let* ok := mlift (json_check_keys jdata config_expected) in
        if negb ok
        then mret (IR_fail (String.append "JSON data from file ("
                              (String.append fpath ") is missing keys")), g)
        else
          let* bb := mlift (obind (py_getitem jdata "base_buy") as_float) in
          let* tb := mlift (obind (py_getitem jdata "thresh_buy") as_float) in
          let* ts := mlift (obind (py_getitem jdata "thresh_sell") as_float) in
          let* oc := mlift (obind (py_getitem jdata "order_cooldown") as_int) in
          let g := mkConfig bb tb ts oc (symbols g) in
          let* syms := mlift (obind (py_getitem jdata "symbols") as_list) in
          if (length syms =? 0)%nat
          then mret (IR_fail (String.append "the given config file ("
                                (String.append fpath ") contains zero symbols")), g)
          else mret (IR_ok syms, g).

(** The collaborators with the markets reported open. *)
Definition markets_open : env :=
  mkEnv (Asset_json_make E) (Asset_json_parse E) (PDP_json_make E) (PDP_json_parse E)
        (json_dumps E) (json_loads E) (IR_ok true) (api_get_assets E)
        (api_send_order E) (clock E) (cfg E) (work_dpath E) (faults E).

End Config.

(** ** The arithmetic of the loop body, in binary64

    The lines of [tick] from the position ratio to the decision
    (thresh.py:220-294), on the numbers they compute with: [float] is a
    binary64 number, every operation rounds as IEEE 754 does. *)

Module B64.

Local Open Scope Z_scope.

Definition prec : Z := 53.
Definition emax : Z := 1024.

(** A Python [float]. *)
Definition float : Type := spec_float.

(** An integer as the numerator or the denominator of a quotient. *)
Definition whole (n : Z) : float :=
  match n with
  | Z0 => S754_zero false
  | Zpos p => S754_finite false p 0
  | Zneg p => S754_finite true p 0
  end.

(** The float a decimal literal denotes: [n / 10^k] rounded to the
    nearest float. *)
Definition dec (n : Z) (k : nat) : float :=
  SFdiv prec emax (whole n) (whole (10 ^ Z.of_nat k)).

Definition zero : float := S754_zero false.
Definition one : float := dec 1 0.
Definition half : float := dec 5 1.

(** [x + y], [x - y], [x * y]. *)
Definition add : float -> float -> float := SFadd prec emax.
Definition sub : float -> float -> float := SFsub prec emax.
Definition mul : float -> float -> float := SFmul prec emax.

(** [x == y], [x < y], [x <= y]: false when either is NaN. *)
Definition eqb : float -> float -> bool := SFeqb.
Definition ltb : float -> float -> bool := SFltb.
Definition leb : float -> float -> bool := SFleb.

(** [x / y]. *)
Definition div (x y : float) : outcome float :=
  if eqb y zero then Raise ZeroDivisionError else Ret (SFdiv prec emax x y).

(** [max(a, b)] and [min(a, b)]: the first argument unless the second is
    greater, or smaller. *)
Definition max (a b : float) : float := if ltb a b then b else a.
Definition min (a b : float) : float := if ltb b a then b else a.

(** The integer nearest to [n / d], the even one of two equally near. *)
Definition nearest_even (n d : Z) : Z :=
  let q := n / d in
  let r := n mod d in
  match 2 * r ?= d with
  | Lt => q
  | Gt => q + 1
  | Eq => if Z.even q then q else q + 1
  end.

(** [round(x, 2)]: the value of [x] rounded to a whole number of
    hundredths, ties to the even one, and then to the nearest float;
    zeros, infinities and NaN round to themselves. *)
Definition round2 (x : float) : float :=
  match x with
  | S754_finite s m e =>
      let n := if 0 <=? e then Z.pos m * 2 ^ e * 100
               else nearest_even (Z.pos m * 100) (2 ^ (- e)) in
      match n with
      | Zpos p => SFdiv prec emax (S754_finite s p 0) (whole 100)
      | _ => S754_zero s
      end
  | _ => x
  end.

(** [int(x)]: truncation toward zero. *)
Definition to_int (x : float) : outcome Z :=
  match x with
  | S754_zero _ => Ret 0
  | S754_infinity _ => Raise OverflowError
  | S754_nan => Raise ValueError
  | S754_finite s m e =>
      let a := if 0 <=? e then Z.pos m * 2 ^ e else Z.pos m / 2 ^ (- e) in
      Ret (if s then - a else a)
  end.

(** The strategy globals the loop body computes with. *)
Record config : Type := mkConfig {
  base_buy : float;
  thresh_buy : float;
  thresh_sell : float
}.

(** What the loop body does with the asset [ad].  [Place action amount]:
    it logs the order and calls
    [self.place_order(ad, TradeOrder(ad.asset.symbol, action, amount))].
    [Nothing]: no share is owned and there is nothing to bootstrap.
    [NotEnough] and [Hold]: it logs that it holds. *)
Inductive decision : Type :=
| Place (action : TradeOrderAction) (amount : float)
| Nothing
| NotEnough
| Hold.

(** [percent_to_max] of [tick] (thresh.py:221-225). *)
Definition percent_to_max (vmin vmax vcurr : float) : outcome float :=
  if negb (eqb vmax vmin)
  then div (sub vcurr vmin) (sub vmax vmin)
  else Ret zero.

(** The lengths of the two parts of the progress bar
    (thresh.py:232-237). *)
Definition progbar (pct : float) : outcome (Z * Z) :=
  obind (to_int (mul (dec 25 0) pct)) (fun stars =>
  obind (to_int (mul (dec 25 0) pct)) (fun stars' =>
  Ret (Z.max 0 stars, Z.max 0 (25 - stars')))).

(** The "fancy logging" of [tick] (thresh.py:220-238): the position
    ratio. *)
Definition position (no_history : bool) (vmin vmax vcurr : float) : outcome float :=
  if negb no_history then
    obind (percent_to_max vmin vmax vcurr) (fun pct =>
    obind (progbar pct) (fun _ => Ret pct))
  else Ret zero.

(** The "actual strategic stuff" of [tick] (thresh.py:243-294); [held] is
    [acurr.value() * ad.asset.quantity]. *)
Definition decide (c : config) (quantity : float) (no_history : bool)
    (held pct : float) : outcome decision :=
  let own_shares := ltb zero quantity in
  if negb own_shares then
    if no_history || eqb quantity zero then Ret (Place BUY one)
    else Ret Nothing
  else
    let thresh_buy_percent := sub half (thresh_buy c) in
    if leb pct thresh_buy_percent then
      obind (div pct thresh_buy_percent) (fun q =>
      let buy_amount := mul (sub one q) (base_buy c) in
      let buy_amount := max one buy_amount in
      Ret (Place BUY buy_amount))
    else
      let thresh_sell_percent := add half (thresh_sell c) in
      if leb thresh_sell_percent pct then
        obind (div (sub pct thresh_sell_percent) (sub one thresh_sell_percent))
          (fun multiplier =>
        let sell_amount := mul multiplier (base_buy c) in
        let sell_amount := min held sell_amount in
        let sell_amount := max zero (round2 (sub sell_amount one)) in
        if eqb sell_amount zero then Ret NotEnough
        else Ret (Place SELL sell_amount))
      else Ret Hold.

(** The loop body of [tick] past the cooldown gate, for an asset of
    quantity [quantity] whose recorded minimum, maximum and newest point
    have the values [vmin], [vmax] and [vcurr]. *)
Definition body (c : config) (quantity : float) (no_history : bool)
    (vmin vmax vcurr : float) : outcome decision :=
  obind (position no_history vmin vmax vcurr) (fun pct =>
  decide c quantity no_history (mul vcurr quantity) pct).

End B64.

(** ** A concrete set of collaborators

    The persisted file format of the specification as a codec for assets
    and price points, a broker that fills every order at $100 a share, and
    a clock; the examples and counterexamples below run against them. *)

Module Sample.

Definition string_of_Z (z : Z) : string := NilZero.string_of_int (Z.to_int z).

Definition Z_of_string (s : string) : option Z :=
  option_map Z.of_int (NilZero.int_of_string s).

(** Modelled from the spec: [PriceDataPoint.json_make], the persisted shape
    [{"price": float, "timestamp": str, "quantity": float}]. *)
Definition pdp_make (p : PriceDataPoint) : json :=
  JDict (<["price" := JFloat (pdp_price p)]>
        (<["timestamp" := JStr (string_of_Z (pdp_timestamp p))]>
        (<["quantity" := JFloat (pdp_quantity p)]> ∅))).

(** Modelled from the spec: [PriceDataPoint.json_parse], [None] unless the
    three keys are there with their types. *)
Definition pdp_parse (j : json) : option PriceDataPoint :=
  match j with
  | JDict m =>
      match m !! "price", m !! "timestamp", m !! "quantity" with
      | Some (JFloat p), Some (JStr t), Some (JFloat q) =>
          option_map (fun z => mkPDP p z q) (Z_of_string t)
      | _, _, _ => None
      end
  | _ => None
  end.

Fixpoint parse_points (l : list json) : option (list PriceDataPoint) :=
  match l with
  | [] => Some []
  | j :: r =>
      match pdp_parse j, parse_points r with
      | Some p, Some ps => Some (p :: ps)
      | _, _ => None
      end
  end.

(** Modelled from the spec: [Asset.json_make], the persisted keys
    [symbol], [name], [quantity] and [phistory]. *)
Definition asset_make (a : Asset) : gmap string json :=
  <["symbol" := JStr (a_symbol a)]>
  (<["name" := JStr (a_name a)]>
  (<["quantity" := JFloat (a_quantity a)]>
  (<["phistory" := JList (List.map pdp_make (a_phistory a))]> ∅))).

(** Modelled from the spec: [Asset.json_parse], [None] unless the four keys
    are there with their types and every price point parses. *)
Definition asset_parse (j : json) : option Asset :=
  match j with
  | JDict m =>
      match m !! "symbol", m !! "name", m !! "quantity", m !! "phistory" with
      | Some (JStr s), Some (JStr n), Some (JFloat q), Some (JList l) =>
          option_map (mkAsset s n q) (parse_points l)
      | _, _, _, _ => None
      end
  | _ => None
  end.

(** The price history of the specification's scenarios: observed at $90,
    $110 and then [current]. *)
Definition history (current : Q) : list PriceDataPoint :=
  [ mkPDP 90 1000000000 1; mkPDP 110 2000000000 1; mkPDP current 3000000000 1 ].

(** A stored document for AAPL: 2 shares, the history ending at $91, one
    transaction. *)
Definition stored : AssetData :=
  mkAD (mkAsset "AAPL" "Apple" 2 (history 91)) HOLD [ mkPDP 95 2500000000 1 ].

(** The document the strategy keeps on disk for [ad]. *)
Definition stored_document (ad : AssetData) : json :=
  JDict (<["thistory" := JList (List.map pdp_make (thistory ad))]>
        (<["mode" := JInt (AssetMode_value (mode ad))]>
        (asset_make (asset ad)))).

(** Stand-ins for [json.dumps] and [json.loads]: the text [stored.json]
    reads as the document of [stored], [half.json] as a document without
    the keys of the strategy, any other text is not JSON; every document is
    written as [written.json]. *)
Definition dumps (j : json) : string := "written.json".

Definition loads (s : string) : option json :=
  if String.eqb s "stored.json"
  then Some (stored_document stored)
  else if String.eqb s "half.json"
  then Some (JDict (asset_make (asset stored)))
  else None.

(** The broker: markets open, and every order filled at $100 a share. *)
Definition market_open : IR bool := IR_ok true.

Definition fill_order (sent : list TradeOrder) (o : TradeOrder) : IR Fill :=
  IR_ok (mkFill (o_amount o) (o_amount o / 100) "fill").

(** A broker that refuses every order. *)
Definition refuse_order (sent : list TradeOrder) (o : TradeOrder) : IR Fill :=
  IR_fail "insufficient buying power".

(** The clock: 100000 seconds after the epoch, one microsecond a reading. *)
Definition ticking (n : nat) : Z := 100000000000 + Z.of_nat n.

(** The configuration of the specification's scenarios. *)
Definition config0 : config := mkConfig 20 (1 # 100) (1 # 100) 43200 ["AAPL"].

Definition world0 : world := mkWorld ∅ [] [] 0.

(** A file system whose reads fail for want of the file and whose writes
    fail for want of the permission, and on which no write breaks off. *)
Definition plain_faults : os_faults :=
  mkFaults
    (fun p => String.append "[Errno 2] No such file or directory: '" (String.append p "'"))
    (fun p => String.append "[Errno 13] Permission denied: '" (String.append p "'"))
    (fun _ _ => None).

(** The collaborators, by the account the broker reports, the way it
    answers orders, and the strategy globals. *)
Definition env_of (account : IR (list Asset))
    (answer : list TradeOrder -> TradeOrder -> IR Fill) (c : config) : env :=
  mkEnv asset_make asset_parse pdp_make pdp_parse dumps loads
        market_open account answer ticking c "work" plain_faults.

(** An empty account, every order filled, the scenarios' configuration. *)
Definition env0 : env := env_of (IR_ok []) fill_order config0.

(** AAPL held (2 shares) with the history ending at [current], no
    transaction so far. *)
Definition held (current : Q) : AssetData :=
  mkAD (mkAsset "AAPL" "Apple" 2 (history current)) HOLD [].

(** AAPL not held, with a history, and without or with a transaction made
    100 seconds before the clock's first reading. *)
Definition unheld : AssetData :=
  mkAD (mkAsset "AAPL" "Apple" 0 (history 91)) WATCH [].

Definition unheld_cooling : AssetData :=
  mkAD (mkAsset "AAPL" "Apple" 0 (history 91)) WATCH [ mkPDP 91 99900000000 (1 # 91) ].

(** The disk with the stored AAPL document, and with an AAPL file that is
    not JSON and is write-protected. *)
Definition world_stored : world :=
  mkWorld {[ "work/asset_aapl.json" := mkFile (Some "stored.json") true ]} [] [] 0.

Definition world_locked : world :=
  mkWorld {[ "work/asset_aapl.json" := mkFile (Some "scribble") false ]} [] [] 0.

End Sample.

(** * Properties *)

(** ** Arithmetic of the runtime *)

Lemma Qlt_bool_true (a b : Q) : Qlt_bool a b = true <-> (a < b)%Q.
Proof.
  unfold Qlt_bool. rewrite negb_true_iff. split.
  - intros H. apply Qnot_le_lt. intros Hle.
    apply Qle_bool_iff in Hle. congruence.
  - intros H. destruct (Qle_bool b a) eqn:Hb; [|reflexivity].
    apply Qle_bool_iff in Hb. exfalso. eapply Qlt_not_le; eauto.
Qed.

Lemma Qlt_bool_false (a b : Q) : Qlt_bool a b = false <-> (b <= a)%Q.
Proof.
  unfold Qlt_bool. rewrite negb_false_iff. apply Qle_bool_iff.
Qed.

Lemma Qeq_bool_false (a b : Q) : Qeq_bool a b = false <-> ~ (a == b)%Q.
Proof.
  split.
  - intros H Heq. apply Qeq_bool_iff in Heq. congruence.
  - intros H. destruct (Qeq_bool a b) eqn:Hb; [|reflexivity].
    apply Qeq_bool_iff in Hb. contradiction.
Qed.

Lemma py_div_nonzero (x y : Q) : ~ (y == 0)%Q -> py_div x y = Ret (x / y)%Q.
Proof.
  intros H. unfold py_div. apply Qeq_bool_false in H. now rewrite H.
Qed.

Lemma py_div_zero (x y : Q) : (y == 0)%Q -> py_div x y = Raise ZeroDivisionError.
Proof.
  intros H. unfold py_div. apply Qeq_bool_iff in H. now rewrite H.
Qed.





(** ** The position ratio *)




(** ** Writing a file *)

(** [file_write_all] returns, whatever happens to the write; it touches
    the disk at its path only, and neither the log, the orders nor the
    clock. *)
Lemma file_write_all_returns (os : os_faults) (fpath txt : string) (w : world) :
  exists r, fst (file_write_all os fpath txt w) = Ret r.
Proof.
  unfold file_write_all.
  destruct (w_disk w !! fpath) as [[t []]|]; try (eexists; reflexivity);
    destruct (write_cut os fpath txt); eexists; reflexivity.
Qed.

Lemma file_write_all_frame (os : os_faults) (fpath txt : string) (w : world) :
  w_log (snd (file_write_all os fpath txt w)) = w_log w
  /\ w_sent (snd (file_write_all os fpath txt w)) = w_sent w
  /\ w_clock (snd (file_write_all os fpath txt w)) = w_clock w
  /\ forall p, p <> fpath ->
       w_disk (snd (file_write_all os fpath txt w)) !! p = w_disk w !! p.
Proof.
  unfold file_write_all.
  destruct (w_disk w !! fpath) as [[t []]|]; try (now repeat split);
    destruct (write_cut os fpath txt); simpl; repeat split; auto;
    intros p Hp; now rewrite lookup_insert_ne by congruence.
Qed.

(** ** Orders *)

Section Orders.

Variable E : env.


(** C9. When [send_order] fails, [place_order] returns [None], leaves the
    asset data as it was (no transaction appended) and the disk untouched;
    it only logs the failure. *)
Theorem place_order_failure (ad : AssetData) (order : TradeOrder) (w : world) :
  success (api_send_order E (w_sent w) order) = false ->
  exists w',
    place_order E ad order w = (Ret (None, ad), w')
    /\ w_disk w' = w_disk w
    /\ w_log w' = w_log w ++ [LogOrderFailed (message (api_send_order E (w_sent w) order))].
Proof.
  intros Hfail.
  unfold place_order, mbind, send_order, log, mret; simpl.
  rewrite Hfail; simpl.
  eexists; split; [reflexivity|]. split; reflexivity.
Qed.

End Orders.

(** A refused order on the stored AAPL data. *)
Lemma place_order_failure_witness :
  exists w',
    place_order (Sample.env_of (IR_ok []) Sample.refuse_order Sample.config0)
      Sample.stored (mkOrder "AAPL" BUY 1) Sample.world0
    = (Ret (None, Sample.stored), w')
    /\ w_disk w' = w_disk Sample.world0
    /\ w_log w' = w_log Sample.world0 ++ [LogOrderFailed "insufficient buying power"].
Proof.
  apply (place_order_failure
           (Sample.env_of (IR_ok []) Sample.refuse_order Sample.config0)
           Sample.stored (mkOrder "AAPL" BUY 1) Sample.world0).
  reflexivity.
Defined.

(** ** One asset of a tick *)

(** The world after one reading of the clock, and after some logging. *)
Definition clock_read (w : world) : world :=
  mkWorld (w_disk w) (w_log w) (w_sent w) (S (w_clock w)).

Definition logged (ms : list logmsg) (w : world) : world :=
  mkWorld (w_disk w) (w_log w ++ ms) (w_sent w) (w_clock w).

Lemma mbind_ret {A B} (m : M A) (k : A -> M B) (w w' : world) (a : A) :
  m w = (Ret a, w') -> mbind m k w = k a w'.
Proof. intros H. unfold mbind. now rewrite H. Qed.




Section Asset_step.

Variable E : env.

(** The time the cooldown gate of [tick_asset] reads in world [w]. *)
Definition gate_time (w : world) : Q := datetime_timestamp (clock E (w_clock w)).

(** An asset in its cooldown: no order, nothing written. *)
Lemma tick_asset_gate_closed (vsum : Q) (ad : AssetData) (w : world) :
  in_cooldown (order_cooldown (cfg E)) (gate_time w) ad = true ->
  w_sent (snd (tick_asset E vsum ad w)) = w_sent w
  /\ w_disk (snd (tick_asset E vsum ad w)) = w_disk w.
Proof.
  intros Hc. unfold tick_asset, mbind, mlift, mret, log, py_now, gate_time in *.
  destruct (is_none (phistory_min (asset ad)) || is_none (phistory_max (asset ad))
            || is_none (phistory_latest (asset ad))); simpl;
    destruct (phistory_latest (asset ad)); simpl; try (split; reflexivity);
    rewrite Hc; split; reflexivity.
Qed.

(** An asset with a price history that the gate lets through: the tick
    computes its position and takes the decision. *)
Lemma tick_asset_gate_open (vsum : Q) (ad : AssetData) (w : world)
    (pmin pmax pcur : PriceDataPoint) :
  phistory_min (asset ad) = Some pmin ->
  phistory_max (asset ad) = Some pmax ->
  phistory_latest (asset ad) = Some pcur ->
  in_cooldown (order_cooldown (cfg E)) (gate_time w) ad = false ->
  tick_asset E vsum ad w =
  mbind (position ad false (Some pmin) (Some pmax) (Some pcur)) (fun pct =>
    mbind (decide E ad false (pdp_value pcur * a_quantity (asset ad)) pct) (fun _ =>
    mret (vsum + pdp_value pcur * a_quantity (asset ad))%Q))
    (clock_read w).
Proof.
  intros Hmin Hmax Hcur Hc.
  unfold tick_asset, gate_time in *. rewrite Hmin, Hmax, Hcur. simpl.
  unfold mbind at 1. unfold mret at 1.
  unfold mbind at 1. unfold mlift at 1.
  unfold mbind at 1. unfold py_now at 1.
  rewrite Hc. reflexivity.
Qed.


End Asset_step.

(** ** The decision *)



Section Decision.

Variable E : env.


End Decision.

(** ** What a tick does with one asset *)

Section Tick_asset.

Variable E : env.





(** C3. An asset whose latest transaction is younger than the cooldown gets
    no decision: no order is sent and nothing is written.  That is so for
    a transaction stamped [now - T + 1]; one stamped [now - T - 1] leaves
    the gate open, and the tick goes on to the position and the decision. *)
Theorem cooldown_gate (vsum : Q) (ad : AssetData) (w : world) (ltran : PriceDataPoint) :
  thistory_latest ad = Some ltran ->
  ((gate_time E w - timestamp_total_seconds ltran < inject_Z (order_cooldown (cfg E)))%Q ->
     w_sent (snd (tick_asset E vsum ad w)) = w_sent w
     /\ w_disk (snd (tick_asset E vsum ad w)) = w_disk w)
  /\ ((timestamp_total_seconds ltran
        == gate_time E w - inject_Z (order_cooldown (cfg E)) + 1)%Q ->
     w_sent (snd (tick_asset E vsum ad w)) = w_sent w
     /\ w_disk (snd (tick_asset E vsum ad w)) = w_disk w)
  /\ ((timestamp_total_seconds ltran
        == gate_time E w - inject_Z (order_cooldown (cfg E)) - 1)%Q ->
     in_cooldown (order_cooldown (cfg E)) (gate_time E w) ad = false
     /\ forall pmin pmax pcur,
          phistory_min (asset ad) = Some pmin ->
          phistory_max (asset ad) = Some pmax ->
          phistory_latest (asset ad) = Some pcur ->
          tick_asset E vsum ad w =
          mbind (position ad false (Some pmin) (Some pmax) (Some pcur)) (fun pct =>
            mbind (decide E ad false (pdp_value pcur * a_quantity (asset ad)) pct)
              (fun _ => mret (vsum + pdp_value pcur * a_quantity (asset ad))%Q))
            (clock_read w)).
Proof.
  intros Hl.
  assert (Hyoung :
    (gate_time E w - timestamp_total_seconds ltran < inject_Z (order_cooldown (cfg E)))%Q ->
    in_cooldown (order_cooldown (cfg E)) (gate_time E w) ad = true).
  { intros H. unfold in_cooldown. rewrite Hl. now apply Qlt_bool_true. }
  split; [|split].
  - intros H. apply tick_asset_gate_closed. auto.
  - intros H. apply tick_asset_gate_closed. apply Hyoung. rewrite H. lra.
  - intros H.
    assert (Hopen : in_cooldown (order_cooldown (cfg E)) (gate_time E w) ad = false).
    { unfold in_cooldown. rewrite Hl. apply Qlt_bool_false. rewrite H. lra. }
    split; [exact Hopen|].
    intros pmin pmax pcur Hmin Hmax Hcur.
    now apply tick_asset_gate_open.
Qed.

End Tick_asset.

(** ** The scenarios of the specification, run *)

(** C1. A tracked symbol with no file on disk and no position in the
    account has no recorded price: the tick logs that and then raises
    [AttributeError] out of [tick], where the claim has it go on to a
    bootstrap buy without raising. *)
Theorem tick_no_history_raises :
  fst (tick Sample.env0 Sample.world0) = Raise AttributeError
  /\ w_log (snd (tick Sample.env0 Sample.world0)) = [LogNoHistory "AAPL"]
  /\ w_sent (snd (tick Sample.env0 Sample.world0)) = [].
Proof. vm_compute. repeat split; reflexivity. Qed.

(** The gate on AAPL with a transaction 100 seconds old. *)
Lemma cooldown_gate_witness :
  w_sent (snd (tick_asset Sample.env0 0 Sample.unheld_cooling Sample.world0)) = []
  /\ w_disk (snd (tick_asset Sample.env0 0 Sample.unheld_cooling Sample.world0)) = ∅.
Proof.
  refine (proj1 (cooldown_gate Sample.env0 0 Sample.unheld_cooling Sample.world0
                   (mkPDP 91 99900000000 (1 # 91)) eq_refl) _).
  reflexivity.
Defined.

(** ** Persistence *)

Lemma AssetMode_roundtrip (m : AssetMode) : AssetMode_of (AssetMode_value m) = Ret m.
Proof. now destruct m. Qed.

(** [json_check_keys] on a JSON object: every expected key is there with
    its type. *)
Lemma json_check_keys_dict (m : gmap string json) (expected : list (string * pytype)) :
  json_check_keys (JDict m) expected
  = Ret (forallb (fun e => match m !! fst e with
                           | Some v => pytype_eqb (type_of v) (snd e)
                           | None => false
                           end) expected).
Proof.
  induction expected as [|[k ty] rest IH]; [reflexivity|].
  simpl. destruct (m !! k) as [v|]; simpl; [|reflexivity].
  destruct (pytype_eqb (type_of v) ty); simpl; [exact IH|reflexivity].
Qed.

Section Persistence.

Variable E : env.

(** The transaction loop on the documents of [l], each of which parses
    back and is no [null]: the points are appended in order. *)
Lemma parse_thistory_documents (l : list PriceDataPoint) (ad : AssetData) :
  Forall (fun p => is_null (PDP_json_make E p) = false
                   /\ PDP_json_parse E (PDP_json_make E p) = Some p) l ->
  parse_thistory E (List.map (PDP_json_make E) l) ad
  = Some (mkAD (asset ad) (mode ad) (thistory ad ++ l)).
Proof.
  intros H. revert ad. induction H as [|p l [Hn Hp] _ IH]; intros ad; simpl.
  - rewrite app_nil_r. now destruct ad.
  - rewrite Hn, Hp, IH. simpl. now rewrite <- app_assoc.
Qed.


(** What [json_parse] makes of a document of [json_make], for an asset
    and points that the codec of [sbi/asset.py] reads back. *)
Lemma AssetData_json_parse_make (ad : AssetData) :
  Asset_json_parse E (AssetData_json_make E ad) = Some (asset ad) ->
  Forall (fun p => is_null (PDP_json_make E p) = false
                   /\ PDP_json_parse E (PDP_json_make E p) = Some p) (thistory ad) ->
  AssetData_json_parse E (AssetData_json_make E ad) = Ret (Some ad).
Proof.
  intros Ha Hp. unfold AssetData_json_parse. rewrite Ha.
  unfold AssetData_json_make. rewrite json_check_keys_dict.
  unfold py_getitem. cbn [forallb fst snd].
  rewrite (lookup_insert_ne _ "thistory" "mode") by discriminate.
  rewrite !lookup_insert_eq. simpl.
  rewrite AssetMode_roundtrip. simpl.
  rewrite (parse_thistory_documents (thistory ad)) by assumption. simpl.
  now destruct ad.
Qed.

End Persistence.

(** The codec of the persisted format reads back what it wrote. *)
Lemma Z_text_roundtrip (z : Z) : Sample.Z_of_string (Sample.string_of_Z z) = Some z.
Proof.
  unfold Sample.Z_of_string, Sample.string_of_Z.
  rewrite NilZero.isi.
  - simpl. now rewrite DecimalZ.of_to.
  - destruct z; simpl; try discriminate.
    intros [= H]. now apply DecimalPos.Unsigned.to_uint_nonnil in H.
  - destruct z; simpl; try discriminate.
    intros [= H]. now apply DecimalPos.Unsigned.to_uint_nonnil in H.
Qed.

Lemma pdp_roundtrip (p : PriceDataPoint) :
  is_null (Sample.pdp_make p) = false
  /\ Sample.pdp_parse (Sample.pdp_make p) = Some p.
Proof.
  split; [reflexivity|]. unfold Sample.pdp_parse, Sample.pdp_make.
  rewrite lookup_insert_eq.
  rewrite (lookup_insert_ne _ "price" "timestamp") by discriminate.
  rewrite lookup_insert_eq.
  rewrite (lookup_insert_ne _ "price" "quantity") by discriminate.
  rewrite (lookup_insert_ne _ "timestamp" "quantity") by discriminate.
  rewrite lookup_insert_eq.
  rewrite Z_text_roundtrip. now destruct p.
Qed.

Lemma parse_points_roundtrip (l : list PriceDataPoint) :
  Sample.parse_points (List.map Sample.pdp_make l) = Some l.
Proof.
  induction l as [|p l IH]; [reflexivity|].
  cbn [List.map Sample.parse_points].
  rewrite (proj2 (pdp_roundtrip p)), IH. reflexivity.
Qed.

(** The keys the strategy adds to the asset's document hide none of the
    asset's own. *)
Lemma asset_roundtrip (a : Asset) (jm jt : json) :
  Sample.asset_parse
    (JDict (<["thistory" := jt]> (<["mode" := jm]> (Sample.asset_make a))))
  = Some a.
Proof.
  unfold Sample.asset_parse, Sample.asset_make.
  rewrite (lookup_insert_ne _ "thistory" "symbol") by discriminate.
  rewrite (lookup_insert_ne _ "mode" "symbol") by discriminate.
  rewrite lookup_insert_eq.
  rewrite (lookup_insert_ne _ "thistory" "name") by discriminate.
  rewrite (lookup_insert_ne _ "mode" "name") by discriminate.
  rewrite (lookup_insert_ne _ "symbol" "name") by discriminate.
  rewrite lookup_insert_eq.
  rewrite (lookup_insert_ne _ "thistory" "quantity") by discriminate.
  rewrite (lookup_insert_ne _ "mode" "quantity") by discriminate.
  rewrite (lookup_insert_ne _ "symbol" "quantity") by discriminate.
  rewrite (lookup_insert_ne _ "name" "quantity") by discriminate.
  rewrite lookup_insert_eq.
  rewrite (lookup_insert_ne _ "thistory" "phistory") by discriminate.
  rewrite (lookup_insert_ne _ "mode" "phistory") by discriminate.
  rewrite (lookup_insert_ne _ "symbol" "phistory") by discriminate.
  rewrite (lookup_insert_ne _ "name" "phistory") by discriminate.
  rewrite (lookup_insert_ne _ "quantity" "phistory") by discriminate.
  rewrite lookup_insert_eq.
  rewrite parse_points_roundtrip. now destruct a.
Qed.

(** The collaborators [E] with the codec of [sbi/asset.py] that writes and
    reads the persisted format of the specification. *)
Definition persisted (E : env) : env :=
  mkEnv Sample.asset_make Sample.asset_parse Sample.pdp_make Sample.pdp_parse
        (json_dumps E) (json_loads E) (api_get_market_status E) (api_get_assets E)
        (api_send_order E) (clock E) (cfg E) (work_dpath E) (faults E).

(** C7. Every [AssetData] written by [json_make] and read by [json_parse]
    comes back equal: in symbol, name, quantity, mode and every entry of
    the price history and of the transaction history.  The part of the
    document that [Asset.json_make] and [PriceDataPoint.json_make] of
    [sbi/asset.py] write is the persisted format of the specification. *)
Theorem json_roundtrip (E : env) (ad : AssetData) :
  AssetData_json_parse (persisted E) (AssetData_json_make (persisted E) ad)
  = Ret (Some ad).
Proof.
  apply AssetData_json_parse_make.
  - apply asset_roundtrip.
  - apply List.Forall_forall. intros p _. apply pdp_roundtrip.
Qed.

(** ** Loading an asset file *)

(** The file of a symbol in a directory, and the text a read of a path
    yields ([None]: there is no file, or the read raises). *)
Definition asset_path (symbol dpath : string) : string :=
  path_join dpath (symbol_to_asset_fname symbol).

Definition readable_text (w : world) (fpath : string) : option string :=
  match w_disk w !! fpath with
  | Some f => f_text f
  | None => None
  end.

(** The three failures [load] reports: that of [file_read_all], handed
    on, and its own two. *)
Definition read_failure (os : os_faults) (fpath : string) : IR AssetData :=
  IR_fail (os_message "failed to read from file" fpath (read_error os fpath)).

Definition json_failure (fpath : string) : IR AssetData :=
  IR_fail (String.append "failed to parse JSON data from file: " fpath).

Definition asset_failure (fpath : string) : IR AssetData :=
  IR_fail (String.append "failed to parse AssetData from file: " fpath).

Section Load.

Variable E : env.

Lemma load_unreadable (symbol dpath : string) (w : world) :
  readable_text w (asset_path symbol dpath) = None ->
  load E symbol dpath w
  = (Ret (read_failure (faults E) (asset_path symbol dpath)), w).
Proof.
  unfold readable_text, load, asset_path, mbind, file_read_all.
  intros H. destruct (w_disk w !! _) as [[[txt|] wr]|]; simpl in H;
    try discriminate; reflexivity.
Qed.

Lemma load_readable (symbol dpath : string) (w : world) (txt : string) :
  readable_text w (asset_path symbol dpath) = Some txt ->
  load E symbol dpath w =
  let jdata := json_try_loads E (Some txt) in
  if is_null jdata then (Ret (json_failure (asset_path symbol dpath)), w)
  else match AssetData_json_parse E jdata with
       | Ret (Some ad) => (Ret (IR_ok ad), w)
       | Ret None => (Ret (asset_failure (asset_path symbol dpath)), w)
       | Raise e => (Raise e, w)
       end.
Proof.
  unfold readable_text, load, asset_path, mbind, file_read_all.
  intros H. destruct (w_disk w !! _) as [[[t|] wr]|]; simpl in H;
    try discriminate. injection H as ->.
  unfold IR_ok. cbn [success data negb]. cbv zeta.
  generalize (json_try_loads E (Some txt)). intros jdata.
  destruct (is_null jdata); [reflexivity|].
  unfold mlift, mret.
  destruct (AssetData_json_parse E jdata) as [[ad|]|e]; reflexivity.
Qed.

(** No document that is [null] parses to an asset data. *)
Lemma AssetData_json_parse_null (ad : AssetData) :
  AssetData_json_parse E JNull <> Ret (Some ad).
Proof.
  unfold AssetData_json_parse. destruct (Asset_json_parse E JNull); discriminate.
Qed.



(** A JSON object whose asset part parses, whose [mode] is an integer that
    is no value of [AssetMode] and whose [thistory] is a list makes
    [json_parse] raise [ValueError]. *)
Lemma AssetData_json_parse_bad_mode (m : gmap string json) (a : Asset) (v : Z)
    (l : list json) :
  Asset_json_parse E (JDict m) = Some a ->
  m !! "mode" = Some (JInt v) ->
  v <> (-1)%Z -> v <> 0%Z -> v <> 1%Z ->
  m !! "thistory" = Some (JList l) ->
  AssetData_json_parse E (JDict m) = Raise ValueError.
Proof.
  intros Ha Hm H1 H2 H3 Ht. unfold AssetData_json_parse. rewrite Ha.
  rewrite json_check_keys_dict. unfold py_getitem. cbn [forallb fst snd].
  rewrite Hm, Ht. simpl. unfold AssetMode_of.
  apply Z.eqb_neq in H1, H2, H3. now rewrite H1, H2, H3.
Qed.



End Load.


(** The stored AAPL document loads. *)
Example load_stored :
  load Sample.env0 "AAPL" "work" Sample.world_stored
  = (Ret (IR_ok Sample.stored), Sample.world_stored).
Proof. vm_compute. reflexivity. Qed.

(** ** Retrieving the assets *)

Lemma AssetGroup_search_symbol (assets : list Asset) (sym : string) (a : Asset) :
  AssetGroup_search assets sym = Some a -> a_symbol a = sym.
Proof.
  unfold AssetGroup_search. intros H. apply find_some in H as [_ H].
  now apply String.eqb_eq.
Qed.

(** Dropping the untracked assets hides no tracked one. *)
Lemma AssetGroup_keep_search (tracked : list string) (assets : list Asset) (sym : string) :
  In sym tracked ->
  AssetGroup_search (AssetGroup_keep tracked assets) sym = AssetGroup_search assets sym.
Proof.
  intros Hin. unfold AssetGroup_search, AssetGroup_keep.
  induction assets as [|a assets IH]; [reflexivity|]. simpl.
  destruct (String.eqb (a_symbol a) sym) eqn:Ha.
  - assert (Hk : existsb (String.eqb (a_symbol a)) tracked = true).
    { apply existsb_exists. exists sym. auto. }
    rewrite Hk. simpl. now rewrite Ha.
  - destruct (existsb (String.eqb (a_symbol a)) tracked); simpl;
      [rewrite Ha|]; exact IH.
Qed.

Section Retrieve.

Variable E : env.

Lemma load_world (symbol dpath : string) (w : world) :
  snd (load E symbol dpath w) = w.
Proof.
  destruct (readable_text w (asset_path symbol dpath)) as [txt|] eqn:Htxt.
  - rewrite (load_readable E symbol dpath w txt Htxt). cbv zeta.
    destruct (is_null _); [reflexivity|].
    now destruct (AssetData_json_parse E _) as [[ad|]|e].
  - now rewrite (load_unreadable E symbol dpath w Htxt).
Qed.

(** [save] returns.  It writes the document when the file can be opened
    and the write does not break off; a file that cannot be opened stays
    as it was; a write that breaks off leaves the file truncated, with the
    part of the document written until then. *)
Lemma save_returns (ad : AssetData) (dpath : string) (w : world) :
  exists r, fst (save E ad dpath w) = Ret r.
Proof. apply file_write_all_returns. Qed.

Lemma save_written (ad : AssetData) (dpath : string) (w : world) :
  (forall t, w_disk w !! asset_path (a_symbol (asset ad)) dpath <> Some (mkFile t false)) ->
  write_cut (faults E) (asset_path (a_symbol (asset ad)) dpath)
    (json_dumps E (AssetData_json_make E ad)) = None ->
  save E ad dpath w
  = (Ret IR_true,
     mkWorld (<[asset_path (a_symbol (asset ad)) dpath
                := mkFile (Some (json_dumps E (AssetData_json_make E ad))) true]>
                (w_disk w))
             (w_log w) (w_sent w) (w_clock w)).
Proof.
  intros H Hc. unfold save, file_write_all, asset_path in *. rewrite Hc.
  destruct (w_disk w !! _) as [[t []]|] eqn:Hd; try reflexivity.
  exfalso. now apply (H t).
Qed.

Lemma save_refused (ad : AssetData) (dpath : string) (w : world) (t : option string) :
  w_disk w !! asset_path (a_symbol (asset ad)) dpath = Some (mkFile t false) ->
  snd (save E ad dpath w) = w /\ exists r, fst (save E ad dpath w) = Ret r /\ success r = false.
Proof.
  intros H. unfold save, file_write_all, asset_path in *. rewrite H.
  split; [reflexivity|]. eexists. split; reflexivity.
Qed.

Lemma save_cut (ad : AssetData) (dpath : string) (w : world) (n : nat) :
  (forall t, w_disk w !! asset_path (a_symbol (asset ad)) dpath <> Some (mkFile t false)) ->
  write_cut (faults E) (asset_path (a_symbol (asset ad)) dpath)
    (json_dumps E (AssetData_json_make E ad)) = Some n ->
  w_disk (snd (save E ad dpath w)) !! asset_path (a_symbol (asset ad)) dpath
  = Some (mkFile (Some (String.substring 0 n (json_dumps E (AssetData_json_make E ad)))) true)
  /\ exists r, fst (save E ad dpath w) = Ret r /\ success r = false.
Proof.
  intros H Hc. unfold save, file_write_all, asset_path in *. rewrite Hc.
  destruct (w_disk w !! _) as [[t []]|] eqn:Hd; simpl;
    try (split; [apply lookup_insert_eq|eexists; split; reflexivity]).
  exfalso. now apply (H t).
Qed.


(** The asset data [retrieve_assets] makes up for a symbol it could not
    load: the account's asset of that symbol, or a new one of quantity 0. *)
Definition fresh_data (assets : list Asset) (sym : string) : AssetData :=
  AssetData_new (match AssetGroup_search assets sym with
                 | Some a => a
                 | None => Asset_new sym sym 0
                 end).

Lemma fresh_data_symbol (assets : list Asset) (sym : string) :
  a_symbol (asset (fresh_data assets sym)) = sym.
Proof.
  unfold fresh_data. destruct (AssetGroup_search assets sym) eqn:H; simpl.
  - now apply AssetGroup_search_symbol in H.
  - reflexivity.
Qed.

(** One round for a symbol whose file did not load. *)
Lemma retrieve_one_fresh (assets : list Asset) (sym : string) (w : world)
    (r : IR AssetData) :
  fst (load E sym (work_dpath E) w) = Ret r ->
  success r = false ->
  retrieve_one E assets sym w
  = (Ret (fresh_data assets sym),
     snd (save E (fresh_data assets sym) (work_dpath E) w)).
Proof.
  intros Hl Hs. unfold retrieve_one.
  assert (Hload : load E sym (work_dpath E) w = (Ret r, w)).
  { pose proof (load_world sym (work_dpath E) w) as Hw.
    destruct (load E sym (work_dpath E) w) as [o w']. simpl in *. now subst. }
  rewrite (mbind_ret _ _ _ _ _ Hload). rewrite Hs.
  unfold fresh_data.
  destruct (AssetGroup_search assets sym) as [a|]; unfold mbind, mret;
    match goal with
    | |- context [save E ?ad ?d w] =>
        destruct (save_returns ad d w) as [x Hx];
        destruct (save E ad d w) as [o w'] eqn:Hsv; simpl in Hx; subst o
    end; reflexivity.
Qed.

(** The rounds run one after the other. *)
Lemma retrieve_each_app (assets : list Asset) (pre post : list string)
    (w w1 : world) (ads : list AssetData) :
  retrieve_each E assets pre w = (Ret ads, w1) ->
  retrieve_each E assets (pre ++ post) w =
  match retrieve_each E assets post w1 with
  | (Ret l, w2) => (Ret (ads ++ l), w2)
  | (Raise e, w2) => (Raise e, w2)
  end.
Proof.
  revert w ads. induction pre as [|s pre IH]; intros w ads H; simpl in *.
  - unfold mret in H. injection H as <- <-.
    now destruct (retrieve_each E assets post w) as [[l|e] w2].
  - unfold mbind in *.
    destruct (retrieve_one E assets s w) as [[ad|e] wa]; [|discriminate].
    destruct (retrieve_each E assets pre wa) as [[l|e] wb] eqn:Hpre; [|discriminate].
    unfold mret in H. injection H as <- <-.
    rewrite (IH wa l Hpre).
    now destruct (retrieve_each E assets post wb) as [[l'|e] w2].
Qed.

End Retrieve.

(** C10, amended. For a tracked symbol that the loop of [retrieve_assets]
    reaches ([get_assets] has answered and the rounds of the symbols
    before it have returned) and whose file does not load (it is missing,
    unreadable, or fails to parse), [retrieve_assets] makes up a fresh
    asset data (mode UNKNOWN, no transaction, the quantity of the
    account's asset or 0), returns it and calls [save] on it, whose result
    it drops.  When the file can be opened and the write goes through, the
    file now holds the fresh document and what was stored before is gone.
    When the file cannot be opened for writing, the disk stays as it was.
    When the write breaks off after the file was opened, the file is left
    truncated, with a part of the fresh document. *)
Theorem retrieve_fresh (E : env) (account : list Asset) (pre post : list string)
    (sym : string) (w w1 : world) (ads : list AssetData) (r : IR AssetData) :
  api_get_assets E = IR_ok account ->
  symbols (cfg E) = pre ++ sym :: post ->
  retrieve_each E (AssetGroup_keep (symbols (cfg E)) account) pre w = (Ret ads, w1) ->
  fst (load E sym (work_dpath E) w1) = Ret r ->
  success r = false ->
  let fresh := fresh_data account sym in
  let fpath := asset_path sym (work_dpath E) in
  let text := json_dumps E (AssetData_json_make E fresh) in
  let w2 := snd (save E fresh (work_dpath E) w1) in
  mode fresh = UNKNOWN
  /\ thistory fresh = []
  /\ a_quantity (asset fresh)
     = match AssetGroup_search account sym with
       | Some a => a_quantity a
       | None => 0%Q
       end
  /\ retrieve_assets E w
     = match retrieve_each E (AssetGroup_keep (symbols (cfg E)) account) post w2 with
       | (Ret l, w3) => (Ret (IR_ok (ads ++ fresh :: l)), w3)
       | (Raise e, w3) => (Raise e, w3)
       end
  /\ ((forall t, w_disk w1 !! fpath <> Some (mkFile t false)) ->
      write_cut (faults E) fpath text = None ->
      w_disk w2 !! fpath = Some (mkFile (Some text) true))
  /\ (forall t, w_disk w1 !! fpath = Some (mkFile t false) -> w2 = w1)
  /\ (forall n, (forall t, w_disk w1 !! fpath <> Some (mkFile t false)) ->
      write_cut (faults E) fpath text = Some n ->
      w_disk w2 !! fpath = Some (mkFile (Some (String.substring 0 n text)) true)).
Proof.
  intros Hapi Hsyms Hpre Hload Hfail fresh fpath text w2.
  assert (Hsym : a_symbol (asset fresh) = sym) by apply fresh_data_symbol.
  split; [reflexivity|]. split; [reflexivity|].
  split; [unfold fresh, fresh_data; now destruct (AssetGroup_search account sym)|].
  split; [|split; [|split]].
  - unfold retrieve_assets. rewrite Hapi. simpl.
    unfold mbind at 1. unfold mlift at 1.
    unfold mbind at 1. rewrite Hsyms at 2.
    rewrite (retrieve_each_app E _ pre (sym :: post) w w1 ads Hpre).
    simpl. unfold mbind at 1.
    rewrite (retrieve_one_fresh E _ sym w1 r Hload Hfail).
    assert (Hin : In sym (symbols (cfg E))).
    { rewrite Hsyms. apply in_or_app. right. now left. }
    unfold fresh_data. rewrite (AssetGroup_keep_search _ account sym Hin).
    fold (fresh_data account sym). fold fresh. fold w2.
    unfold mbind, mret.
    now destruct (retrieve_each E _ post w2) as [[l|e] w3].
  - intros Hw Hc. pose proof (save_written E fresh (work_dpath E) w1) as H.
    rewrite Hsym in H. unfold w2. rewrite (H Hw Hc). simpl. apply lookup_insert_eq.
  - intros t Hw. pose proof (save_refused E fresh (work_dpath E) w1 t) as H.
    rewrite Hsym in H. now apply H.
  - intros n Hw Hc. pose proof (save_cut E fresh (work_dpath E) w1 n) as H.
    rewrite Hsym in H. now apply H.
Qed.

(** AAPL tracked, no file, no position: a fresh document is written. *)
Lemma retrieve_fresh_witness :
  retrieve_assets Sample.env0 Sample.world0
  = (Ret (IR_ok [AssetData_new (Asset_new "AAPL" "AAPL" 0)]),
     mkWorld {[ "work/asset_aapl.json" := mkFile (Some "written.json") true ]} [] [] 0).
Proof.
  refine (proj1 (proj2 (proj2 (proj2
    (retrieve_fresh Sample.env0 [] [] [] "AAPL" Sample.world0 Sample.world0 []
       (read_failure Sample.plain_faults "work/asset_aapl.json")
       eq_refl eq_refl eq_refl eq_refl eq_refl))))).
Defined.

(** C10 fails as stated: a write-protected AAPL file that is not JSON does
    not load, a fresh asset data is made up and returned, and the file is
    not overwritten. *)
Lemma retrieve_fresh_counterexample :
  load Sample.env0 "AAPL" "work" Sample.world_locked
  = (Ret (json_failure "work/asset_aapl.json"), Sample.world_locked)
  /\ retrieve_assets Sample.env0 Sample.world_locked
     = (Ret (IR_ok [AssetData_new (Asset_new "AAPL" "AAPL" 0)]), Sample.world_locked)
  /\ w_disk Sample.world_locked !! "work/asset_aapl.json"
     = Some (mkFile (Some "scribble") false).
Proof. vm_compute. repeat split; reflexivity. Qed.

(** * More of the code

    Properties of [thresh.py] and [utils.py] beyond the ones above. *)

(** ** The transaction history *)

(** X1. [thistory_append] puts the point at the end, where [thistory_latest]
    finds it, and leaves the asset and the mode alone; [thistory_latest]
    answers [None] exactly on an empty history. *)
Theorem thistory_latest_append (ad : AssetData) (p : PriceDataPoint) :
  thistory_latest (thistory_append ad p) = Some p
  /\ thistory (thistory_append ad p) = thistory ad ++ [p]
  /\ asset (thistory_append ad p) = asset ad
  /\ mode (thistory_append ad p) = mode ad
  /\ (thistory_latest ad = None <-> thistory ad = []).
Proof.
  split; [|split; [reflexivity|split; [reflexivity|split; [reflexivity|]]]].
  - unfold thistory_latest, thistory_append. simpl.
    rewrite length_app. simpl.
    replace (length (thistory ad) + 1 =? 0)%nat with false
      by (symmetry; apply Nat.eqb_neq; lia).
    replace (length (thistory ad) + 1 - 1)%nat with (length (thistory ad)) by lia.
    now apply list_lookup_middle.
  - unfold thistory_latest. destruct (thistory ad) as [|x l] eqn:Hl; simpl.
    + split; reflexivity.
    + split; [|discriminate]. rewrite Nat.sub_0_r. intros H.
      assert (Hlt : (length l < length (x :: l))%nat) by (simpl; lia).
      apply lookup_lt_is_Some in Hlt. rewrite H in Hlt. now destruct Hlt.
Qed.

Section Parsing.

Variable E : env.

(** X2. The transaction loop of [json_parse] passes over [null] entries: it
    reads a list as it reads the list without them. *)
Theorem parse_thistory_skips_null (l : list json) (ad : AssetData) :
  parse_thistory E l ad
  = parse_thistory E (List.filter (fun j => negb (is_null j)) l) ad.
Proof.
  revert ad. induction l as [|j l IH]; intros ad; [reflexivity|]. simpl.
  destruct (is_null j) eqn:Hn; simpl.
  - apply IH.
  - rewrite Hn. destruct (PDP_json_parse E j); [apply IH|reflexivity].
Qed.

(** X3. [load] does not turn every bad file into a failure: a stored [mode]
    outside -1, 0, 1 (in a document that is otherwise well-formed) makes
    it raise [ValueError]. *)
Theorem load_bad_mode (symbol dpath : string) (w : world) (txt : string)
    (m : gmap string json) (a : Asset) (v : Z) (l : list json) :
  readable_text w (asset_path symbol dpath) = Some txt ->
  json_loads E txt = Some (JDict m) ->
  Asset_json_parse E (JDict m) = Some a ->
  m !! "mode" = Some (JInt v) ->
  v <> (-1)%Z -> v <> 0%Z -> v <> 1%Z ->
  m !! "thistory" = Some (JList l) ->
  load E symbol dpath w = (Raise ValueError, w).
Proof.
  intros Htxt Hj Ha Hm H1 H2 H3 Ht.
  rewrite (load_readable E symbol dpath w txt Htxt). cbv zeta.
  unfold json_try_loads. rewrite Hj. simpl.
  now rewrite (AssetData_json_parse_bad_mode E m a v l).
Qed.

End Parsing.

Lemma pytype_eqb_eq (a b : pytype) : pytype_eqb a b = true <-> a = b.
Proof. destruct a, b; simpl; split; congruence. Qed.

(** X4. [json_check_keys] on a JSON object never raises and answers [True]
    exactly when every expected key is there with a value of exactly the
    expected type; on [null], a boolean or a number it raises [TypeError]
    as soon as a key is expected. *)
Theorem json_check_keys_object (jdata : json) (expected : list (string * pytype)) :
  (forall m, jdata = JDict m ->
     exists b, json_check_keys jdata expected = Ret b
               /\ (b = true <->
                   Forall (fun e => exists v, m !! fst e = Some v /\ type_of v = snd e)
                          expected))
  /\ (match jdata with JDict _ | JList _ | JStr _ => False | _ => True end ->
      expected <> [] -> json_check_keys jdata expected = Raise TypeError).
Proof.
  split.
  - intros m ->. eexists. split; [apply json_check_keys_dict|].
    rewrite forallb_forall, Forall_forall. split; intros H e He.
    + apply list_elem_of_In in He.
      specialize (H e He). destruct (m !! fst e) as [v|]; [|discriminate].
      exists v. split; [reflexivity|]. now apply pytype_eqb_eq.
    + apply list_elem_of_In in He.
      destruct (H e He) as (v & -> & Hv). now apply pytype_eqb_eq.
  - intros Hj Hne. destruct expected as [|[k ty] rest]; [contradiction|].
    destruct jdata; simpl in *; try reflexivity; contradiction.
Qed.

(** ** File names *)

Lemma chars_append (a b : string) :
  list_ascii_of_string (String.append a b)
  = list_ascii_of_string a ++ list_ascii_of_string b.
Proof. induction a as [|c a IH]; simpl; [reflexivity|now rewrite IH]. Qed.

Lemma string_append_empty (a : string) : String.append a EmptyString = a.
Proof.
  induction a as [|c a IH]; [reflexivity|].
  change (String c (String.append a EmptyString) = String c a). now f_equal.
Qed.

Lemma string_append_assoc (a b c : string) :
  String.append (String.append a b) c = String.append a (String.append b c).
Proof.
  induction a as [|x a IH]; [reflexivity|].
  change (String x (String.append (String.append a b) c)
          = String x (String.append a (String.append b c))). now f_equal.
Qed.

(** A text without whitespace. *)
Definition unspaced (s : string) : Prop :=
  Forall (fun c => is_space c = false) (list_ascii_of_string s).

Lemma py_split_from_unspaced (cur s : string) :
  unspaced cur -> Forall unspaced (py_split_from cur s).
Proof.
  revert cur. induction s as [|c s IH]; intros cur Hcur; simpl.
  - destruct (is_empty cur); auto.
  - destruct (is_space c) eqn:Hc.
    + destruct (is_empty cur); [apply IH; constructor|].
      constructor; [assumption|]. apply IH. constructor.
    + apply IH. unfold unspaced. rewrite chars_append. apply Forall_app.
      split; [assumption|]. simpl. auto.
Qed.

Lemma py_join_unspaced (sep : string) (l : list string) :
  unspaced sep -> Forall unspaced l -> unspaced (py_join sep l).
Proof.
  intros Hsep H. induction H as [|x l Hx Hl IH]; [constructor|].
  simpl. destruct l as [|y l]; [assumption|].
  unfold unspaced. rewrite !chars_append. apply Forall_app. split; [assumption|].
  apply Forall_app. split; [assumption|exact IH].
Qed.

(** A run in progress comes out at the head of the split, possibly
    longer. *)
Lemma py_split_from_head (cur s : string) :
  is_empty cur = false ->
  exists rest tail, py_split_from cur s = String.append cur rest :: tail.
Proof.
  revert cur. induction s as [|c s IH]; intros cur Hcur; simpl.
  - rewrite Hcur. exists EmptyString, []. now rewrite string_append_empty.
  - destruct (is_space c).
    + rewrite Hcur. exists EmptyString. eexists. now rewrite string_append_empty.
    + destruct (IH (String.append cur (String c EmptyString))) as (rest & tail & ->).
      { now destruct cur. }
      exists (String c rest), tail. now rewrite string_append_assoc.
Qed.

Lemma py_join_head (sep x : string) (tail : list string) :
  exists rest, py_join sep (x :: tail) = String.append x rest.
Proof.
  simpl. destruct tail as [|y tail].
  - exists EmptyString. now rewrite string_append_empty.
  - eexists. reflexivity.
Qed.

Lemma py_replace_append (old new : ascii) (a b : string) :
  py_replace old new (String.append a b)
  = String.append (py_replace old new a) (py_replace old new b).
Proof.
  induction a as [|c a IH]; [reflexivity|].
  change (String (if Ascii.eqb c old then new else c)
            (py_replace old new (String.append a b))
          = String (if Ascii.eqb c old then new else c)
              (String.append (py_replace old new a) (py_replace old new b))).
  now f_equal.
Qed.

Lemma py_replace_chars (old new : ascii) (s : string) :
  list_ascii_of_string (py_replace old new s)
  = List.map (fun c => if Ascii.eqb c old then new else c) (list_ascii_of_string s).
Proof. induction s as [|c s IH]; simpl; [reflexivity|now rewrite IH]. Qed.

Lemma prefix_append (a b : string) : String.prefix a (String.append a b) = true.
Proof.
  induction a as [|c a IH]; [now destruct b|].
  change (String.append (String c a) b) with (String c (String.append a b)).
  simpl. destruct (ascii_dec c c); [exact IH|contradiction].
Qed.

(** X5. The file name of a symbol holds no whitespace and no path separator,
    so it names a file directly under the directory it is joined to; it
    starts with [asset_] and ends in [.json]. *)
Theorem symbol_to_asset_fname_safe (name : string) :
  Forall (fun c => is_space c = false /\ c <> "/"%char /\ c <> "\"%char)
         (list_ascii_of_string (symbol_to_asset_fname name))
  /\ String.prefix "asset_" (symbol_to_asset_fname name) = true
  /\ exists stem, symbol_to_asset_fname name = String.append stem ".json".
Proof.
  unfold symbol_to_asset_fname, str_to_fname. cbn [is_empty].
  set (s := String.append "asset_" (py_lower name)).
  split; [|split].
  - rewrite chars_append. apply Forall_app. split.
    + rewrite !py_replace_chars.
      assert (H : unspaced (py_join "_" (py_split s))).
      { apply py_join_unspaced; [repeat constructor|].
        apply py_split_from_unspaced. constructor. }
      unfold unspaced in H. rewrite List.map_map. apply Forall_map.
      eapply Forall_impl; [exact H|]. intros c Hc. simpl.
      destruct (Ascii.eqb c "/") eqn:H1.
      * vm_compute. repeat split; discriminate.
      * apply Ascii.eqb_neq in H1.
        destruct (Ascii.eqb c "\") eqn:H2.
        -- vm_compute. repeat split; discriminate.
        -- apply Ascii.eqb_neq in H2. auto.
    + repeat constructor; discriminate.
  - assert (Hs : py_split s = py_split_from "asset_" (py_lower name)) by reflexivity.
    rewrite Hs.
    destruct (py_split_from_head "asset_" (py_lower name) eq_refl) as (rest & tail & ->).
    destruct (py_join_head "_" (String.append "asset_" rest) tail) as (rest' & ->).
    rewrite !string_append_assoc, !py_replace_append, !string_append_assoc.
    change (py_replace "\" "-" (py_replace "/" "-" "asset_")) with "asset_".
    apply prefix_append.
  - eexists. reflexivity.
Qed.

Lemma lower_ascii_idempotent (c : ascii) : lower_ascii (lower_ascii c) = lower_ascii c.
Proof. destruct c as [[] [] [] [] [] [] [] []]; reflexivity. Qed.

Lemma py_lower_idempotent (s : string) : py_lower (py_lower s) = py_lower s.
Proof.
  induction s as [|c s IH]; simpl; [reflexivity|].
  now rewrite lower_ascii_idempotent, IH.
Qed.

(** X6. The file of a symbol does not depend on the case of its ASCII letters:
    a symbol and its lower-case form share one file, and so do two
    symbols with the same lower-case form. *)
Theorem symbol_to_asset_fname_case (name other : string) :
  symbol_to_asset_fname (py_lower name) = symbol_to_asset_fname name
  /\ (py_lower name = py_lower other ->
      forall dpath, asset_path name dpath = asset_path other dpath).
Proof.
  split.
  - unfold symbol_to_asset_fname. now rewrite py_lower_idempotent.
  - intros H dpath. unfold asset_path, symbol_to_asset_fname. now rewrite H.
Qed.

(** ** Saving, and loading back *)

Section Save.

Variable E : env.

(** X7. [save] touches nothing but the file of the asset's symbol: the log,
    the orders and the clock stay, and so does every other path.  It
    always returns: a success, and then the file holds the document; or a
    failure, and then either the world is as it was ([open] raised) or the
    file has been truncated and holds what was written of the document
    until [write] or [close] raised. *)
Theorem save_frame (ad : AssetData) (dpath : string) (w : world) :
  let fpath := asset_path (a_symbol (asset ad)) dpath in
  let text := json_dumps E (AssetData_json_make E ad) in
  let w' := snd (save E ad dpath w) in
  w_log w' = w_log w /\ w_sent w' = w_sent w /\ w_clock w' = w_clock w
  /\ (forall p, p <> fpath -> w_disk w' !! p = w_disk w !! p)
  /\ exists r,
       fst (save E ad dpath w) = Ret r
       /\ (success r = true -> w_disk w' !! fpath = Some (mkFile (Some text) true))
       /\ (success r = false ->
           w' = w
           \/ exists n,
                w_disk w' !! fpath
                = Some (mkFile (Some (String.substring 0 n text)) true)).
Proof.
  intros fpath text w'.
  destruct (file_write_all_frame (faults E) fpath text w) as (Hl & Hs & Hc & Hd).
  split; [exact Hl|]. split; [exact Hs|]. split; [exact Hc|]. split; [exact Hd|].
  unfold w', fpath, text, save, asset_path, file_write_all.
  destruct (w_disk w !! _) as [[t []]|] eqn:Hn;
    try destruct (write_cut (faults E) _ _) as [n|]; simpl;
    eexists; (split; [reflexivity|]); split; intros Hr; try discriminate;
    try apply lookup_insert_eq;
    try (right; exists n; apply lookup_insert_eq).
  now left.
Qed.


(** X9. A filled order is recorded: [place_order] returns the fill, appends a
    transaction at the fill's average price ([value / quantity]), stamped
    with the clock and carrying the fill's quantity, and saves the asset
    data with it. *)
Theorem place_order_filled (ad : AssetData) (order : TradeOrder) (w : world)
    (fill : Fill) :
  api_send_order E (w_sent w) order = IR_ok fill ->
  ~ (f_quantity fill == 0)%Q ->
  let pdp := mkPDP (f_value fill / f_quantity fill) (clock E (w_clock w))
               (f_quantity fill) in
  let ad' := thistory_append ad pdp in
  let w1 := mkWorld (w_disk w)
              (w_log w ++ [LogOrderSucceeded (f_value fill) (f_id fill)])
              (w_sent w ++ [order]) (S (w_clock w)) in
  place_order E ad order w = (Ret (Some fill, ad'), snd (save E ad' (work_dpath E) w1))
  /\ thistory_latest ad' = Some pdp.
Proof.
  intros Hapi Hq pdp ad' w1. split.
  - unfold place_order, mbind, send_order, mlift, log, py_now, mret; simpl.
    rewrite Hapi; simpl. rewrite py_div_nonzero by assumption. simpl.
    fold pdp. fold ad'. fold w1.
    destruct (save_returns E ad' (work_dpath E) w1) as [r Hr].
    destruct (save E ad' (work_dpath E) w1) as [o w2]. simpl in Hr. now subst o.
  - unfold ad', thistory_latest, thistory_append. simpl.
    rewrite length_app. simpl.
    replace (length (thistory ad) + 1 =? 0)%nat with false
      by (symmetry; apply Nat.eqb_neq; lia).
    replace (length (thistory ad) + 1 - 1)%nat with (length (thistory ad)) by lia.
    now apply list_lookup_middle.
Qed.

(** X10. A fill of quantity 0 is not recorded: the order has gone out, and
    [place_order] raises [ZeroDivisionError] on the average price, before
    any transaction is appended or anything is written. *)
Theorem place_order_empty_fill (ad : AssetData) (order : TradeOrder) (w : world)
    (fill : Fill) :
  api_send_order E (w_sent w) order = IR_ok fill ->
  (f_quantity fill == 0)%Q ->
  place_order E ad order w
  = (Raise ZeroDivisionError,
     mkWorld (w_disk w) (w_log w ++ [LogOrderSucceeded (f_value fill) (f_id fill)])
             (w_sent w ++ [order]) (w_clock w)).
Proof.
  intros Hapi Hq.
  unfold place_order, mbind, send_order, mlift, log, py_now, mret; simpl.
  rewrite Hapi; simpl. now rewrite py_div_zero by assumption.
Qed.

End Save.

(** ** Refreshing the assets *)

Section Refresh.

Variable E : env.

Lemma save_then_ret (ad : AssetData) (dpath : string) (w : world) (x : AssetData) :
  mbind (save E ad dpath) (fun _ => mret x) w = (Ret x, snd (save E ad dpath w)).
Proof.
  unfold mbind, mret. destruct (save_returns E ad dpath w) as [r Hr].
  destruct (save E ad dpath w) as [o w']. simpl in Hr. now subst o.
Qed.

(** X11. A symbol whose file loads keeps what was stored: the refresh never
    touches the mode or the transactions; with the symbol in the account
    the quantity becomes the account's and the account's newest price is
    appended to the history; without it the stored data goes back out
    unchanged, stored quantity included.  Either way it is saved again. *)
Theorem retrieve_one_loaded (assets : list Asset) (sym : string) (w : world)
    (ad : AssetData) :
  fst (load E sym (work_dpath E) w) = Ret (IR_ok ad) ->
  exists ad',
    retrieve_one E assets sym w = (Ret ad', snd (save E ad' (work_dpath E) w))
    /\ mode ad' = mode ad
    /\ thistory ad' = thistory ad
    /\ a_symbol (asset ad') = a_symbol (asset ad)
    /\ (AssetGroup_search assets sym = None -> ad' = ad)
    /\ (forall a, AssetGroup_search assets sym = Some a ->
        a_quantity (asset ad') = a_quantity a
        /\ a_phistory (asset ad')
           = a_phistory (asset ad) ++ match phistory_latest a with
                                      | Some p => [p]
                                      | None => []
                                      end).
Proof.
  intros Hl.
  assert (Hload : load E sym (work_dpath E) w = (Ret (IR_ok ad), w)).
  { pose proof (load_world E sym (work_dpath E) w) as Hw.
    destruct (load E sym (work_dpath E) w) as [o w']. simpl in *. now subst. }
  unfold retrieve_one. rewrite (mbind_ret _ _ _ _ _ Hload). cbn [success data IR_ok].
  destruct (AssetGroup_search assets sym) as [a|].
  - eexists. split; [apply save_then_ret|].
    split; [reflexivity|]. split; [reflexivity|]. split; [|split].
    + unfold set_quantity, phistory_append. now destruct (phistory_latest a).
    + discriminate.
    + intros a' [= <-]. split; [reflexivity|].
      unfold set_quantity, phistory_append. simpl.
      destruct (phistory_latest a); simpl; [reflexivity|now rewrite app_nil_r].
  - exists ad. split; [apply save_then_ret|].
    repeat split; try discriminate; reflexivity.
Qed.

Lemma retrieve_each_length (assets : list Asset) (syms : list string) (w w' : world)
    (adata : list AssetData) :
  retrieve_each E assets syms w = (Ret adata, w') -> length adata = length syms.
Proof.
  revert w adata. induction syms as [|s syms IH]; intros w adata H; simpl in H.
  - unfold mret in H. now injection H as <- <-.
  - unfold mbind in H.
    destruct (retrieve_one E assets s w) as [[ad|e] w1]; [|discriminate].
    destruct (retrieve_each E assets syms w1) as [[l|e] w2] eqn:Hr; [|discriminate].
    unfold mret in H. injection H as <- <-. simpl. f_equal. eauto.
Qed.

(** X12. [retrieve_assets] answers with one asset data for each configured
    symbol, in a success; its only failure is that of [get_assets], handed
    on as it is with nothing touched. *)
Theorem retrieve_assets_result (w w' : world) (r : IR (list AssetData)) :
  retrieve_assets E w = (Ret r, w') ->
  (success r = true ->
     success (api_get_assets E) = true
     /\ exists adata, data r = Some adata
                      /\ length adata = length (symbols (cfg E)))
  /\ (success r = false ->
     success (api_get_assets E) = false
     /\ r = IR_pass (api_get_assets E) /\ w' = w).
Proof.
  unfold retrieve_assets.
  destruct (success (api_get_assets E)) eqn:Hs; simpl; intros H.
  - unfold mbind, mlift in H.
    destruct (data (api_get_assets E)) as [account|]; [|discriminate].
    destruct (retrieve_each E _ (symbols (cfg E)) w) as [[adata|e] w1] eqn:Hr;
      [|discriminate].
    unfold mret in H. injection H as <- <-. split; [|discriminate].
    intros _. split; [reflexivity|]. exists adata. split; [reflexivity|].
    eapply retrieve_each_length; eauto.
  - unfold mret in H. injection H as <- <-. split; [simpl; congruence|].
    intros _. auto.
Qed.

(** X13. A failure of the broker ends the tick at once: that of
    [get_market_status] before anything happens, that of [get_assets] with
    at most the line about closed markets logged; either is handed to the
    caller, no file is written and no order sent. *)
Theorem tick_broker_failure (w : world) :
  (success (api_get_market_status E) = false ->
     tick E w = (Ret (IR_pass (api_get_market_status E)), w))
  /\ (success (api_get_market_status E) = true ->
      success (api_get_assets E) = false ->
      fst (tick E w) = Ret (IR_pass (api_get_assets E))
      /\ w_disk (snd (tick E w)) = w_disk w
      /\ w_sent (snd (tick E w)) = w_sent w).
Proof.
  unfold tick. split.
  - intros H. now rewrite H.
  - intros Hm Ha. rewrite Hm. simpl.
    unfold retrieve_assets. rewrite Ha. simpl.
    unfold mbind, mret, log.
    destruct (data (api_get_market_status E)) as [[]|]; simpl;
      rewrite Ha; simpl; auto.
Qed.

End Refresh.

(** ** The orders of a tick *)








Section Orders_of_tick.

Variable E : env.











End Orders_of_tick.

(** ** The bootstrap buy of a tick *)




(** X17. A closed market does not end the tick: past the line it logs, the tick
    runs as it does with the markets open, orders included. *)
Theorem tick_markets_closed (E : env) (w : world) :
  success (api_get_market_status E) = true ->
  data (api_get_market_status E) <> Some true ->
  tick E w = tick (markets_open E) (logged [LogMarketsClosed] w).
Proof.
  intros Hs Hd. unfold tick. rewrite Hs. simpl.
  destruct (data (api_get_market_status E)) as [[]|]; [contradiction| |]; reflexivity.
Qed.

(** ** Appending to files *)


Lemma csv_row_from_join {A} (py_str : A -> string) (row : list A) (i : nat)
    (row_str : string) :
  csv_row_from py_str row i (i + length row) row_str
  = String.append row_str (py_join "," (List.map py_str row)).
Proof.
  revert i row_str. induction row as [|x rest IH]; intros i row_str.
  - simpl. now rewrite string_append_empty.
  - cbn [csv_row_from length List.map].
    replace (i + S (length rest))%nat with (S i + length rest)%nat by lia.
    rewrite IH. destruct rest as [|y rest].
    + replace (i <? S i + length [] - 1)%nat with false
        by (symmetry; apply Nat.ltb_ge; simpl; lia).
      simpl. now rewrite !string_append_empty.
    + replace (i <? S i + length (y :: rest) - 1)%nat with true
        by (symmetry; apply Nat.ltb_lt; simpl; lia).
      cbn [py_join List.map]. now rewrite !string_append_assoc.
Qed.

(** X19. The row [csv_append_row] appends is the values' texts joined by
    commas, then a newline; an empty row is a line of its own.  Nothing is
    quoted or escaped. *)
Theorem csv_append_row_join {A} (py_str : A -> string) (fpath : string) (row : list A) :
  csv_append_row py_str fpath row
  = file_append fpath (String.append (py_join "," (List.map py_str row)) newline).
Proof.
  unfold csv_append_row. cbv zeta.
  pose proof (csv_row_from_join py_str row 0 EmptyString) as H.
  change (0 + length row)%nat with (length row) in H.
  change (String.append EmptyString (py_join "," (List.map py_str row)))
    with (py_join "," (List.map py_str row)) in H.
  now rewrite H.
Qed.

(** ** The configuration file *)

(** A document with the five keys of the configuration. *)
Definition config_document (m : gmap string json) (bb tb ts : Q) (oc : Z)
    (syms : list json) : Prop :=
  m !! "base_buy" = Some (JFloat bb)
  /\ m !! "thresh_buy" = Some (JFloat tb)
  /\ m !! "thresh_sell" = Some (JFloat ts)
  /\ m !! "order_cooldown" = Some (JInt oc)
  /\ m !! "symbols" = Some (JList syms).

Section Config_file.

Variable E : env.

(** The file at [fpath] reads as the JSON object [m]. *)
Definition config_text (w : world) (fpath : string) (m : gmap string json) : Prop :=
  exists txt, readable_text w fpath = Some txt /\ json_loads E txt = Some (JDict m).

(** What [config_load] does with the document it has read. *)
Definition config_assign (fpath : string) (g : config) (jdata : json)
    : M (IR (list json) * config) :=
  let* ok := mlift (json_check_keys jdata config_expected) in
  if negb ok
  then mret (IR_fail (String.append "JSON data from file ("
                        (String.append fpath ") is missing keys")), g)
  else
    let* bb := mlift (obind (py_getitem jdata "base_buy") as_float) in
    let* tb := mlift (obind (py_getitem jdata "thresh_buy") as_float) in
    let* ts := mlift (obind (py_getitem jdata "thresh_sell") as_float) in
    let* oc := mlift (obind (py_getitem jdata "order_cooldown") as_int) in
    let g := mkConfig bb tb ts oc (symbols g) in
    let* syms := mlift (obind (py_getitem jdata "symbols") as_list) in
    if (length syms =? 0)%nat
    then mret (IR_fail (String.append "the given config file ("
                          (String.append fpath ") contains zero symbols")), g)
    else mret (IR_ok syms, g).

Lemma config_load_readable (fpath : string) (g : config) (w : world) (txt : string) :
  readable_text w fpath = Some txt ->
  config_load E fpath g w
  = match json_loads E txt with
    | None | Some JNull =>
        (Ret (IR_fail (String.append "failed to load JSON data from: " fpath), g), w)
    | Some j => config_assign fpath g j w
    end.
Proof.
  intros Ht. unfold config_load, readable_text in *.
  unfold mbind at 1. unfold isfile at 1.
  destruct (w_disk w !! fpath) as [[t wr]|] eqn:Hd; [|discriminate].
  simpl in Ht. subst t. cbn [negb].
  unfold mbind at 1. unfold file_read_all at 1. rewrite Hd.
  cbn [IR_ok success data negb]. unfold json_try_loads.
  destruct (json_loads E txt) as [[]|]; reflexivity.
Qed.

Lemma config_load_unreadable (fpath : string) (g : config) (w : world) :
  readable_text w fpath = None ->
  exists r, config_load E fpath g w = (Ret (r, g), w) /\ success r = false.
Proof.
  intros Ht. unfold config_load, readable_text in *.
  unfold mbind at 1. unfold isfile at 1.
  destruct (w_disk w !! fpath) as [[[t|] wr]|] eqn:Hd; [discriminate| |].
  - cbn [negb]. unfold mbind at 1. unfold file_read_all at 1. rewrite Hd.
    eexists. split; reflexivity.
  - eexists. split; reflexivity.
Qed.

Lemma config_load_object (fpath : string) (g : config) (w : world)
    (m : gmap string json) :
  config_text w fpath m ->
  config_load E fpath g w = config_assign fpath g (JDict m) w.
Proof.
  intros (txt & Ht & Hj). rewrite (config_load_readable fpath g w txt Ht).
  now rewrite Hj.
Qed.

Lemma config_document_checked (m : gmap string json) (bb tb ts : Q) (oc : Z)
    (syms : list json) :
  config_document m bb tb ts oc syms ->
  json_check_keys (JDict m) config_expected = Ret true.
Proof.
  intros (H1 & H2 & H3 & H4 & H5). rewrite json_check_keys_dict.
  unfold config_expected. cbn [forallb fst snd].
  now rewrite H1, H2, H3, H4, H5.
Qed.

Lemma config_checked_document (m : gmap string json) :
  json_check_keys (JDict m) config_expected = Ret true ->
  exists bb tb ts oc syms, config_document m bb tb ts oc syms.
Proof.
  rewrite json_check_keys_dict. unfold config_expected, config_document.
  cbn [forallb fst snd]. intros H.
  destruct (m !! "base_buy") as [[]|]; try discriminate.
  destruct (m !! "thresh_buy") as [[]|]; try discriminate.
  destruct (m !! "thresh_sell") as [[]|]; try discriminate.
  destruct (m !! "order_cooldown") as [[]|]; try discriminate.
  destruct (m !! "symbols") as [[]|]; try discriminate.
  repeat eexists.
Qed.

Lemma config_load_document (fpath : string) (g : config) (w : world)
    (m : gmap string json) (bb tb ts : Q) (oc : Z) (syms : list json) :
  config_text w fpath m ->
  config_document m bb tb ts oc syms ->
  config_load E fpath g w
  = (Ret (if (length syms =? 0)%nat
          then IR_fail (String.append "the given config file ("
                          (String.append fpath ") contains zero symbols"))
          else IR_ok syms,
          mkConfig bb tb ts oc (symbols g)), w).
Proof.
  intros Ht Hdoc. rewrite (config_load_object fpath g w m Ht). unfold config_assign.
  rewrite (config_document_checked m bb tb ts oc syms Hdoc).
  destruct Hdoc as (H1 & H2 & H3 & H4 & H5).
  unfold mbind, mlift, mret, py_getitem. simpl.
  rewrite H1, H2, H3, H4, H5. simpl.
  now destruct (length syms =? 0)%nat.
Qed.

(** X20. A configuration file that reads as a JSON object with the five keys,
    at least one symbol among them, is accepted: the four numbers become
    the strategy globals and the symbols are handed back; the world is not
    touched. *)
Theorem config_load_accepts (fpath : string) (g : config) (w : world)
    (m : gmap string json) (bb tb ts : Q) (oc : Z) (syms : list json) :
  config_text w fpath m ->
  config_document m bb tb ts oc syms ->
  syms <> [] ->
  config_load E fpath g w = (Ret (IR_ok syms, mkConfig bb tb ts oc (symbols g)), w).
Proof.
  intros Ht Hdoc Hne. rewrite (config_load_document fpath g w m bb tb ts oc syms Ht Hdoc).
  destruct syms; [contradiction|reflexivity].
Qed.

(** X21. A configuration with an empty list of symbols is refused, but only
    after its four numbers have replaced the strategy globals: the failed
    load leaves the new numbers behind. *)
Theorem config_load_zero_symbols (fpath : string) (g : config) (w : world)
    (m : gmap string json) (bb tb ts : Q) (oc : Z) :
  config_text w fpath m ->
  config_document m bb tb ts oc [] ->
  exists r,
    config_load E fpath g w = (Ret (r, mkConfig bb tb ts oc (symbols g)), w)
    /\ success r = false /\ data r = None.
Proof.
  intros Ht Hdoc. rewrite (config_load_document fpath g w m bb tb ts oc [] Ht Hdoc).
  simpl. eexists. split; [reflexivity|]. split; reflexivity.
Qed.

(** X22. A configuration that lacks one of the five keys, or holds it with
    another type (a whole number where a float is expected, say), is
    refused for missing keys, and the strategy globals stay as they were. *)
Theorem config_load_missing_keys (fpath : string) (g : config) (w : world)
    (m : gmap string json) :
  config_text w fpath m ->
  Exists (fun e => forall v, m !! fst e = Some v -> type_of v <> snd e) config_expected ->
  config_load E fpath g w
  = (Ret (IR_fail (String.append "JSON data from file ("
                     (String.append fpath ") is missing keys")), g), w).
Proof.
  intros Ht Hex. rewrite (config_load_object fpath g w m Ht). unfold config_assign.
  rewrite json_check_keys_dict.
  assert (Hf : forallb (fun e => match m !! fst e with
                                 | Some v => pytype_eqb (type_of v) (snd e)
                                 | None => false
                                 end) config_expected = false).
  { apply not_true_is_false. intros Hall. rewrite forallb_forall in Hall.
    apply Exists_exists in Hex. destruct Hex as (e & He & Hbad).
    apply list_elem_of_In in He.
    specialize (Hall e He). destruct (m !! fst e) as [v|]; [|discriminate].
    apply pytype_eqb_eq in Hall. now apply (Hbad v). }
  rewrite Hf. reflexivity.
Qed.

(** X23. Every way [config_load] ends.  It never touches the world.  A success
    comes from a file that reads as a JSON object with the five typed keys
    and a symbol, and sets the globals to its numbers.  A failure leaves
    the globals as they were, unless the file is a full configuration
    without symbols.  It raises only [TypeError], on a file that reads as a
    JSON value that is neither an object nor [null]. *)
Theorem config_load_cases (fpath : string) (g : config) (w : world) :
  snd (config_load E fpath g w) = w
  /\ match fst (config_load E fpath g w) with
     | Ret (r, g') =>
         if success r
         then exists m bb tb ts oc syms,
                config_text w fpath m /\ config_document m bb tb ts oc syms
                /\ syms <> [] /\ data r = Some syms
                /\ g' = mkConfig bb tb ts oc (symbols g)
         else g' = g
              \/ exists m bb tb ts oc,
                   config_text w fpath m /\ config_document m bb tb ts oc []
                   /\ g' = mkConfig bb tb ts oc (symbols g)
     | Raise e =>
         e = TypeError
         /\ exists txt j,
              readable_text w fpath = Some txt /\ json_loads E txt = Some j
              /\ match j with JNull | JDict _ => False | _ => True end
     end.
Proof.
  destruct (readable_text w fpath) as [txt|] eqn:Htxt.
  - rewrite (config_load_readable fpath g w txt Htxt).
    destruct (json_loads E txt) as [j|] eqn:Hj;
      [|split; [reflexivity|]; now left].
    destruct j as [|b|z|q|s|l|m].
    + split; [reflexivity|]. now left.
    + split; [reflexivity|]. split; [reflexivity|]. exists txt, (JBool b). auto.
    + split; [reflexivity|]. split; [reflexivity|]. exists txt, (JInt z). auto.
    + split; [reflexivity|]. split; [reflexivity|]. exists txt, (JFloat q). auto.
    + unfold config_assign, mbind at 1, mlift at 1. simpl.
      destruct (index 0 "base_buy" s); simpl.
      * split; [reflexivity|]. split; [reflexivity|]. exists txt, (JStr s). auto.
      * split; [reflexivity|]. now left.
    + unfold config_assign, mbind at 1, mlift at 1. simpl.
      destruct (existsb _ l); simpl.
      * split; [reflexivity|]. split; [reflexivity|]. exists txt, (JList l). auto.
      * split; [reflexivity|]. now left.
    + assert (Ht : config_text w fpath m) by (exists txt; auto).
      rewrite <- (config_load_object fpath g w m Ht).
      destruct (json_check_keys (JDict m) config_expected) as [[]|e] eqn:Hck.
      * destruct (config_checked_document m Hck) as (bb & tb & ts & oc & syms & Hdoc).
        rewrite (config_load_document fpath g w m bb tb ts oc syms Ht Hdoc).
        split; [reflexivity|]. simpl. destruct syms as [|s syms]; simpl.
        -- right. exists m, bb, tb, ts, oc.
           split; [exact Ht|]. split; [exact Hdoc|reflexivity].
        -- exists m, bb, tb, ts, oc, (s :: syms).
           split; [exact Ht|]. split; [exact Hdoc|]. split; [discriminate|].
           split; reflexivity.
      * rewrite (config_load_object fpath g w m Ht).
        unfold config_assign, mbind at 1, mlift at 1. rewrite Hck. simpl.
        split; [reflexivity|]. now left.
      * rewrite json_check_keys_dict in Hck. discriminate.
  - destruct (config_load_unreadable fpath g w Htxt) as (r & -> & Hr).
    split; [reflexivity|]. simpl. rewrite Hr. now left.
Qed.

End Config_file.

(** ** Scenarios

    More collaborators and files for the examples: a stored AAPL document
    with a mode outside the enum, configuration files, a broker that
    answers an order with an empty fill, and a [json.dumps] whose text
    reads back as the document of the stored AAPL data. *)

Module Cases.

Definition odd_mode : gmap string json :=
  <["thistory" := JList []]>
  (<["mode" := JInt 7]> (Sample.asset_make (asset Sample.stored))).

Definition config_of (bb : json) (syms : list json) : gmap string json :=
  <["base_buy" := bb]>
  (<["thresh_buy" := JFloat (2 # 100)]>
  (<["thresh_sell" := JFloat (3 # 100)]>
  (<["order_cooldown" := JInt 3600]>
  (<["symbols" := JList syms]> ∅)))).

Definition loads (s : string) : option json :=
  if String.eqb s "mode7.json" then Some (JDict odd_mode)
  else if String.eqb s "cooling.json"
  then Some (Sample.stored_document Sample.unheld_cooling)
  else if String.eqb s "config.json"
  then Some (JDict (config_of (JFloat 25) [JStr "AAPL"; JStr "MSFT"]))
  else if String.eqb s "nosymbols.json" then Some (JDict (config_of (JFloat 25) []))
  else if String.eqb s "whole.json" then Some (JDict (config_of (JInt 25) [JStr "AAPL"]))
  else Sample.loads s.

Definition dumps (j : json) : string := "stored.json".

(** A broker whose fill is empty. *)
Definition void_order (sent : list TradeOrder) (o : TradeOrder) : IR Fill :=
  IR_ok (mkFill 0 0 "void").

Definition env_of (status : IR bool)
    (answer : list TradeOrder -> TradeOrder -> IR Fill) : env :=
  mkEnv Sample.asset_make Sample.asset_parse Sample.pdp_make Sample.pdp_parse
        dumps loads status (IR_ok []) answer Sample.ticking Sample.config0 "work"
        Sample.plain_faults.

Definition env1 : env := env_of (IR_ok true) Sample.fill_order.

(** The markets closed. *)
Definition env_closed : env := env_of (IR_ok false) Sample.fill_order.

(** The AAPL file with the odd mode, and three configuration files. *)
Definition world_files : world :=
  mkWorld (<["work/asset_aapl.json" := mkFile (Some "mode7.json") true]>
          (<["thresh.json" := mkFile (Some "config.json") true]>
          (<["empty.json" := mkFile (Some "nosymbols.json") true]>
          (<["whole.json" := mkFile (Some "whole.json") true]> ∅))))
          [] [] 0.





End Cases.



(** The stored AAPL file with mode 7. *)
Lemma load_bad_mode_witness :
  load Cases.env1 "AAPL" "work" Cases.world_files = (Raise ValueError, Cases.world_files).
Proof.
  apply (load_bad_mode Cases.env1 "AAPL" "work" Cases.world_files "mode7.json"
           Cases.odd_mode (asset Sample.stored) 7 []);
    try reflexivity; discriminate.
Defined.


(** A $20 buy of AAPL filled at $100 a share. *)
Lemma place_order_filled_witness :
  fst (place_order Sample.env0 Sample.stored (mkOrder "AAPL" BUY 20) Sample.world0)
  = Ret (Some (mkFill 20 (20 / 100) "fill"),
         thistory_append Sample.stored (mkPDP (20 / (20 / 100)) 100000000000 (20 / 100)))
  /\ thistory_latest
       (thistory_append Sample.stored (mkPDP (20 / (20 / 100)) 100000000000 (20 / 100)))
     = Some (mkPDP (20 / (20 / 100)) 100000000000 (20 / 100)).
Proof.
  assert (Hq : ~ (f_quantity (mkFill 20 (20 / 100) "fill") == 0)%Q) by discriminate.
  destruct (place_order_filled Sample.env0 Sample.stored (mkOrder "AAPL" BUY 20)
              Sample.world0 (mkFill 20 (20 / 100) "fill") eq_refl Hq) as [H1 H2].
  split; [now rewrite H1|exact H2].
Defined.

(** The same order answered with an empty fill. *)
Lemma place_order_empty_fill_witness :
  place_order (Cases.env_of (IR_ok true) Cases.void_order) Sample.stored
    (mkOrder "AAPL" BUY 20) Sample.world0
  = (Raise ZeroDivisionError,
     mkWorld ∅ [LogOrderSucceeded 0 "void"] [mkOrder "AAPL" BUY 20] 0).
Proof.
  apply (place_order_empty_fill (Cases.env_of (IR_ok true) Cases.void_order)
           Sample.stored (mkOrder "AAPL" BUY 20) Sample.world0 (mkFill 0 0 "void"));
    reflexivity.
Defined.

(** The stored AAPL file, AAPL absent from the account: the stored data
    goes back out. *)
Lemma retrieve_one_loaded_witness :
  exists ad',
    retrieve_one Sample.env0 [] "AAPL" Sample.world_stored
    = (Ret ad', snd (save Sample.env0 ad' "work" Sample.world_stored))
    /\ ad' = Sample.stored.
Proof.
  destruct (retrieve_one_loaded Sample.env0 [] "AAPL" Sample.world_stored Sample.stored
              eq_refl) as (ad' & Hr & _ & _ & _ & Hnone & _).
  exists ad'. split; [exact Hr|]. now apply Hnone.
Defined.

(** The stored AAPL file refreshed against an empty account. *)
Lemma retrieve_assets_result_witness :
  exists adata,
    data (IR_ok [Sample.stored]) = Some adata
    /\ length adata = length (symbols (cfg Sample.env0)).
Proof.
  refine (proj2 (proj1
    (retrieve_assets_result Sample.env0 Sample.world_stored
       (snd (retrieve_assets Sample.env0 Sample.world_stored))
       (IR_ok [Sample.stored]) _) eq_refl)).
  vm_compute. reflexivity.
Defined.

(** The markets closed and the stored AAPL file at $91: the tick goes on
    and buys. *)
Lemma tick_markets_closed_witness :
  tick Cases.env_closed Sample.world_stored
  = tick (markets_open Cases.env_closed) (logged [LogMarketsClosed] Sample.world_stored)
  /\ w_sent (snd (tick (markets_open Cases.env_closed)
                    (logged [LogMarketsClosed] Sample.world_stored)))
     = [mkOrder "AAPL" BUY (35200 # 1960)].
Proof.
  split.
  - apply (tick_markets_closed Cases.env_closed Sample.world_stored).
    + reflexivity.
    + discriminate.
  - vm_compute. reflexivity.
Defined.

(** The configuration file [thresh.json]. *)
Lemma config_load_accepts_witness :
  config_load Cases.env1 "thresh.json" Sample.config0 Cases.world_files
  = (Ret (IR_ok [JStr "AAPL"; JStr "MSFT"],
          mkConfig 25 (2 # 100) (3 # 100) 3600 ["AAPL"]), Cases.world_files).
Proof.
  apply (config_load_accepts Cases.env1 "thresh.json" Sample.config0 Cases.world_files
           (Cases.config_of (JFloat 25) [JStr "AAPL"; JStr "MSFT"])).
  - exists "config.json". split; reflexivity.
  - repeat split.
  - discriminate.
Defined.

(** The configuration file [empty.json], without symbols. *)
Lemma config_load_zero_symbols_witness :
  exists r,
    config_load Cases.env1 "empty.json" Sample.config0 Cases.world_files
    = (Ret (r, mkConfig 25 (2 # 100) (3 # 100) 3600 ["AAPL"]), Cases.world_files)
    /\ success r = false /\ data r = None.
Proof.
  apply (config_load_zero_symbols Cases.env1 "empty.json" Sample.config0
           Cases.world_files (Cases.config_of (JFloat 25) [])).
  - exists "nosymbols.json". split; reflexivity.
  - repeat split.
Defined.

(** The configuration file [whole.json], with [base_buy] a whole number. *)
Lemma config_load_missing_keys_witness :
  config_load Cases.env1 "whole.json" Sample.config0 Cases.world_files
  = (Ret (IR_fail "JSON data from file (whole.json) is missing keys", Sample.config0),
     Cases.world_files).
Proof.
  apply (config_load_missing_keys Cases.env1 "whole.json" Sample.config0
           Cases.world_files (Cases.config_of (JInt 25) [JStr "AAPL"])).
  - exists "whole.json". split; reflexivity.
  - apply Exists_cons_hd. intros v [= <-]. discriminate.
Defined.

(** * The decision in binary64 *)

(** ** Differences of floats

    A float is valid when its mantissa and exponent are those of a
    binary64 number.  The difference of two valid floats that are not
    equal is not zero. *)

Section Binary64.

Local Open Scope Z_scope.



















End Binary64.


(** ** The position ratio *)





(** ** The sizes of the orders *)











(** ** At the thresholds

    One unit in the last place decides.  With the history $1.03, $6.03,
    $3.48 the ratio is 0.49000000000000005, above the threshold 0.49, and
    the asset is held on to; with $1.01, $4.01, $2.48 it is 0.49, and $1.00
    is bought. *)
Example above_the_buy_threshold :
  let c := B64.mkConfig (B64.dec 20 0) (B64.dec 1 2) (B64.dec 1 2) in
  B64.position false (B64.dec 103 2) (B64.dec 603 2) (B64.dec 348 2)
  = Ret (B64.dec 49000000000000005 17)
  /\ B64.sub B64.half (B64.dec 1 2) = B64.dec 49 2
  /\ B64.ltb (B64.dec 49 2) (B64.dec 49000000000000005 17) = true
  /\ B64.body c B64.one false (B64.dec 103 2) (B64.dec 603 2) (B64.dec 348 2)
     = Ret B64.Hold.
Proof. vm_compute. repeat split; reflexivity. Qed.

Example at_the_buy_threshold :
  let c := B64.mkConfig (B64.dec 20 0) (B64.dec 1 2) (B64.dec 1 2) in
  B64.position false (B64.dec 101 2) (B64.dec 401 2) (B64.dec 248 2)
  = Ret (B64.dec 49 2)
  /\ B64.body c B64.one false (B64.dec 101 2) (B64.dec 401 2) (B64.dec 248 2)
     = Ret (B64.Place BUY B64.one).
Proof. vm_compute. repeat split; reflexivity. Qed.
